(** * Criteria-driven feature extraction: a shallow embedding of
      [http_parsing/extractor.py] and [http_data_extraction.py].

    The Python code is a thin layer over [lxml] (HTML parsing and XPath) and
    [re] (regular expressions).  Those libraries are an interface here
    ([Lxml], [Codecs]); every function of the repository is translated on top
    of that interface: dictionaries are insertion-ordered association lists,
    exceptions are the [Raise] branch of [result], and the one object that is
    shared between instances (the default [meta_features] list) lives in an
    explicit heap. *)

From Stdlib Require Import ZArith Strings.Byte Strings.Ascii.
From stdpp Require Import base list strings.

Local Open Scope Z_scope.

(** ** Exceptions and results *)

Inductive exn : Type :=
| ValueError (msg : string)
| KeyError (key : string)
| TypeError (msg : string)
| IndexError
| XMLSyntaxError
| DecodeError.

Inductive result (A : Type) : Type :=
| Ok (a : A)
| Raise (e : exn).
Arguments Ok {A} a.
Arguments Raise {A} e.

#[global] Instance result_ret : MRet result := fun A a => Ok a.
#[global] Instance result_bind : MBind result := fun A B f m =>
  match m with
  | Ok a => f a
  | Raise e => Raise e
  end.

Definition is_ok {A} (r : result A) : bool :=
  match r with Ok _ => true | Raise _ => false end.

(** [for x in xs: s = body(s, x)], stopping at the first exception *)
Fixpoint for_each {A S : Type} (body : S -> A -> result S) (xs : list A) (s : S)
    : result S :=
  match xs with
  | [] => Ok s
  | x :: rest => s' ← body s x; for_each body rest s'
  end.

(** ** Python dictionaries

    A [dict] keeps its keys in insertion order; assigning to a key that is
    already present replaces the value and leaves the key where it is. *)

Definition dict (V : Type) : Type := list (string * V).

Section dict_ops.
Context {V : Type}.

(** [d.get(k)]: [None] when [k not in d]. *)
Fixpoint dict_get (d : dict V) (k : string) : option V :=
  match d with
  | [] => None
  | (k', v) :: d' => if String.eqb k' k then Some v else dict_get d' k
  end.

(** [k in d] *)
Definition dict_mem (k : string) (d : dict V) : bool :=
  match dict_get d k with Some _ => true | None => false end.

(** [d[k] = v] *)
Fixpoint dict_set (d : dict V) (k : string) (v : V) : dict V :=
  match d with
  | [] => [(k, v)]
  | (k', v') :: d' =>
      if String.eqb k' k then (k', v) :: d' else (k', v') :: dict_set d' k v
  end.

(** [list(d)], the keys in iteration order *)
Definition dict_keys (d : dict V) : list string := map fst d.

(** [bool(d)]: a dictionary is truthy when it is not empty. *)
Definition dict_truthy (d : dict V) : bool :=
  match d with [] => false | _ :: _ => true end.

(** [d[k]] as an expression *)
Definition dict_item (d : dict V) (k : string) : result V :=
  match dict_get d k with
  | Some v => Ok v
  | None => Raise (KeyError k)
  end.
End dict_ops.

(** [name in l] for a Python list of strings *)
Definition list_mem (name : string) (l : list string) : bool :=
  existsb (String.eqb name) l.

(** ** Values held by a feature row *)

Inductive pyvalue : Type :=
| PyInt (n : Z)
| PyStr (s : string).

Definition row : Type := dict pyvalue.

(** ** Criteria

    A criterion is the dictionary built by [put_feature_criterion]: the key
    ["xpath"] is always there, ["text_re_mode"] and ["text_re_pattern"] are
    there when the field is [Some]. *)

Record feature : Type := {
  f_xpath : option string;
  f_text_re_mode : option string;
  f_text_re_pattern : option string
}.

Definition criteria : Type := dict feature.

Definition put_feature_criterion (feature_criteria : criteria) (name : string)
    (xpath re_mode re_pattern : option string) : criteria :=
  dict_set feature_criteria name
    {| f_xpath := xpath; f_text_re_mode := re_mode; f_text_re_pattern := re_pattern |}.

(** ** The libraries the code calls *)

Inductive source : Type :=
| StringIO (text : string)
| BytesIO (bytes_string : list byte)
| FileObject (path : string).

(** [element_text] is lxml's [element.text] ([None] or a string),
    [tree_xpath] is [html_tree.xpath(expr)], [etree_parse] is
    [etree.parse(source, parser=HTMLParser(recover=True))], and
    [re_match] / [re_search] tell whether [re.match(pattern, text)] /
    [re.search(pattern, text)] returns a match object. *)
Class Lxml : Type := {
  ElementTree : Type;
  Element : Type;
  element_text : Element -> option string;
  tree_xpath : ElementTree -> string -> list Element;
  etree_parse : source -> result ElementTree;
  re_match : string -> string -> bool;
  re_search : string -> string -> bool
}.

(** [element.text] is [None] or a [str], so of the three branches of the
    source the last one ([str(value)]) is never taken. *)
Definition _custom_str (value : option string) : string :=
  match value with
  | None => ""
  | Some s => s
  end.

Section extraction.
Context `{Lxml}.

(** [data[feature_name] += 1] *)
Definition incr_item (data : row) (feature_name : string) : result row :=
  match dict_get data feature_name with
  | Some (PyInt n) => Ok (dict_set data feature_name (PyInt (n + 1)))
  | Some (PyStr _) => Raise (TypeError "can only concatenate str (not int) to str")
  | None => Raise (KeyError feature_name)
  end.

(** [data[feature_name] += s] for a string [s] *)
Definition append_item (data : row) (feature_name : string) (s : string) : result row :=
  match dict_get data feature_name with
  | Some (PyStr t) => Ok (dict_set data feature_name (PyStr (t +:+ s)))
  | Some (PyInt _) => Raise (TypeError "unsupported operand type(s) for +=: int and str")
  | None => Raise (KeyError feature_name)
  end.

(** The loop [for element in elements: if pattern_matcher(...): data[...] += 1] *)
Fixpoint count_matching (pattern_matcher : string -> string -> bool) (pattern : string)
    (feature_name : string) (elements : list Element) (data : row) : result row :=
  match elements with
  | [] => Ok data
  | element :: rest =>
      data' ← (if pattern_matcher pattern (_custom_str (element_text element))
               then incr_item data feature_name
               else Ok data);
      count_matching pattern_matcher pattern feature_name rest data'
  end.

(** The loop [for element in ...: data[feature_name] += _custom_str(element.text)] *)
Fixpoint concat_texts (feature_name : string) (elements : list Element) (data : row)
    : result row :=
  match elements with
  | [] => Ok data
  | element :: rest =>
      data' ← append_item data feature_name (_custom_str (element_text element));
      concat_texts feature_name rest data'
  end.

(** [html_tree.xpath(feature["xpath"])]: lxml refuses an expression that
    is [None] with a [TypeError]. *)
Definition eval_xpath (html_tree : ElementTree) (xpath : option string)
    : result (list Element) :=
  match xpath with
  | Some expr => Ok (tree_xpath html_tree expr)
  | None => Raise (TypeError "Argument must be bytes or unicode, got NoneType")
  end.

(** One turn of the first loop of [extract_features_from_tree].  The
    [else: raise ValueError(fmt % mode, name)] branch formats a two-place
    pattern with one argument, so what is raised there is a [TypeError]. *)
Definition count_feature (feature_criteria : criteria) (html_tree : ElementTree)
    (data : row) (feature_name : string) : result row :=
  feature ← dict_item feature_criteria feature_name;
  elements ← eval_xpath html_tree (f_xpath feature);
  match f_text_re_mode feature, f_text_re_pattern feature with
  | Some mode, Some pattern =>
      pattern_matcher ←
        (if String.eqb mode "match" then Ok re_match
         else if String.eqb mode "search" then Ok re_search
         else Raise (TypeError "not enough arguments for format string"));
      count_matching pattern_matcher pattern feature_name elements
        (dict_set data feature_name (PyInt 0))
  | _, _ => Ok (dict_set data feature_name (PyInt (Z.of_nat (length elements))))
  end.

(** One turn of the second loop. *)
Definition content_feature (content_criteria : criteria) (html_tree : ElementTree)
    (data : row) (feature_name : string) : result row :=
  feature ← dict_item content_criteria feature_name;
  let data := dict_set data feature_name (PyStr "") in
  elements ← eval_xpath html_tree (f_xpath feature);
  concat_texts feature_name elements data.

Definition extract_features_from_tree (feature_criteria content_criteria : criteria)
    (html_tree : ElementTree) : result row :=
  data ← for_each (count_feature feature_criteria html_tree)
                  (dict_keys feature_criteria) [];
  for_each (content_feature content_criteria html_tree)
           (dict_keys content_criteria) data.

Definition extract_features_from_file (feature_criteria content_criteria : criteria)
    (source_file : source) : result row :=
  html_tree ← etree_parse source_file;
  extract_features_from_tree feature_criteria content_criteria html_tree.

Definition extract_features_from_string (feature_criteria content_criteria : criteria)
    (text : string) : result row :=
  extract_features_from_file feature_criteria content_criteria (StringIO text).

Definition extract_features_from_bytes (feature_criteria content_criteria : criteria)
    (bytes_string : list byte) : result row :=
  extract_features_from_file feature_criteria content_criteria (BytesIO bytes_string).
End extraction.

(** ** The configuration document

    What [json.load] returns for a configuration file.  A key of a JSON
    object can be absent, [null] or a string. *)

Inductive json_field : Type :=
| Absent
| Null
| Str (s : string).

(** [obj[key]] *)
Definition json_item (key : string) (field : json_field) : result (option string) :=
  match field with
  | Absent => Raise (KeyError key)
  | Null => Ok None
  | Str s => Ok (Some s)
  end.

(** [obj[key] if key in obj else None] *)
Definition json_item_or_none (field : json_field) : option string :=
  match field with
  | Absent | Null => None
  | Str s => Some s
  end.

Record config_entry : Type := {
  e_name : option string;
  e_xpath : json_field;
  e_text_re_mode : json_field;
  e_text_re_pattern : json_field
}.

Record rubric : Type := {
  features_to_count : option (list config_entry);
  text_to_extract : option (list config_entry)
}.

Definition rubric_item (key : string) (field : option (list config_entry))
    : result (list config_entry) :=
  match field with
  | Some entries => Ok entries
  | None => Raise (KeyError key)
  end.

Definition entry_name (entry : config_entry) : result string :=
  match e_name entry with
  | Some name => Ok name
  | None => Raise (KeyError "name")
  end.

(** The two loops of [load_feature_criteria].  The dictionaries are updated
    in place by the source; here the updated pair is returned. *)
Definition load_count_entry (feature_criteria : criteria) (entry : config_entry)
    : result criteria :=
  name ← entry_name entry;
  xpath ← json_item "xpath" (e_xpath entry);
  Ok (put_feature_criterion feature_criteria name xpath
        (json_item_or_none (e_text_re_mode entry))
        (json_item_or_none (e_text_re_pattern entry))).

Definition load_content_entry (extracted_content : criteria) (entry : config_entry)
    : result criteria :=
  name ← entry_name entry;
  xpath ← json_item "xpath" (e_xpath entry);
  Ok (put_feature_criterion extracted_content name xpath None None).

Definition load_feature_criteria (config_file : rubric)
    (feature_criteria extracted_content : criteria) : result (criteria * criteria) :=
  count_entries ← rubric_item "features_to_count" (features_to_count config_file);
  feature_criteria ← for_each load_count_entry count_entries feature_criteria;
  content_entries ← rubric_item "text_to_extract" (text_to_extract config_file);
  extracted_content ← for_each load_content_entry content_entries extracted_content;
  Ok (feature_criteria, extracted_content).

(** ** The heap of shared list objects

    [meta_features=[]] in the signature of [__init__] is evaluated once, when
    the class body runs; every call that leaves the argument out gets that
    same list object.  A list object is a cell of the heap, a reference to
    it is the index of the cell. *)

Abbreviation loc := nat.
Abbreviation heap := (list (list string)).

Definition heap_get (h : heap) (l : loc) : list string := default [] (h !! l).
Definition heap_set (h : heap) (l : loc) (v : list string) : heap := <[l := v]> h.
Definition heap_alloc (h : heap) (v : list string) : loc * heap := (length h, h ++ [v]).

(** The cell of the default argument of [__init__], and the heap as it is
    once the module is imported. *)
Definition default_meta_features : loc := 0%nat.
Definition module_heap : heap := [[]].

(** ** The class *)

Record CountingFeatureExtractor : Type := {
  _extracted_feature_criteria : criteria;
  _extracted_content_criteria : criteria;
  _meta_features : loc;
  feature_counts : list row
}.

Definition set_feature_criteria (self : CountingFeatureExtractor) (c : criteria)
    : CountingFeatureExtractor :=
  {| _extracted_feature_criteria := c;
     _extracted_content_criteria := _extracted_content_criteria self;
     _meta_features := _meta_features self;
     feature_counts := feature_counts self |}.

Definition set_content_criteria (self : CountingFeatureExtractor) (c : criteria)
    : CountingFeatureExtractor :=
  {| _extracted_feature_criteria := _extracted_feature_criteria self;
     _extracted_content_criteria := c;
     _meta_features := _meta_features self;
     feature_counts := feature_counts self |}.

Definition set_feature_counts (self : CountingFeatureExtractor) (rows : list row)
    : CountingFeatureExtractor :=
  {| _extracted_feature_criteria := _extracted_feature_criteria self;
     _extracted_content_criteria := _extracted_content_criteria self;
     _meta_features := _meta_features self;
     feature_counts := rows |}.

(** When the loading raises, the source has already stored the entries that
    came before the exception; the instance is not followed further here. *)
Definition load_extracted_features (self : CountingFeatureExtractor) (config_file : rubric)
    : result CountingFeatureExtractor :=
  '(fc, cc) ← load_feature_criteria config_file
                (_extracted_feature_criteria self) (_extracted_content_criteria self);
  Ok (set_content_criteria (set_feature_criteria self fc) cc).

(** [config_file] is the content of the file at [config_file_path];
    [meta_features] is [None] when the caller leaves the argument out. *)
Definition __init__ (config_file : option rubric) (meta_features : option loc)
    : result CountingFeatureExtractor :=
  let self :=
    {| _extracted_feature_criteria := [];
       _extracted_content_criteria := [];
       _meta_features := default default_meta_features meta_features;
       feature_counts := [] |} in
  match config_file with
  | Some config => load_extracted_features self config
  | None => Ok self
  end.

Definition add_meta_feature (self : CountingFeatureExtractor) (name : string) (h : heap)
    : heap :=
  let l := _meta_features self in
  if list_mem name (heap_get h l) then h
  else heap_set h l (heap_get h l ++ [name]).

Definition is_none {A} (o : option A) : bool :=
  match o with None => true | Some _ => false end.

Definition _validate_new_feature (self : CountingFeatureExtractor) (name : string)
    (xpath text_re_mode text_re_pattern : option string) : result unit :=
  if dict_mem name (_extracted_feature_criteria self)
     || dict_truthy (_extracted_content_criteria self)
  then Raise (ValueError ("There is already a feature named '" +:+ name +:+ "'."))
  else if is_none xpath
  then Raise (ValueError "An XPath expression is required for criteria.")
  else if (is_none text_re_mode && negb (is_none text_re_pattern))
          || (negb (is_none text_re_mode) && is_none text_re_pattern)
  then Raise (ValueError "text_re_mode and text_re_pattern must both be defined or None")
  else if negb (is_none text_re_mode)
          && negb (list_mem (default "" text_re_mode) ["match"; "search"])
  then Raise (ValueError "text_re_mode should be None, 'match', or 'search'")
  else Ok ().

Definition add_extracted_content (self : CountingFeatureExtractor) (name : string)
    (xpath : option string) : result CountingFeatureExtractor :=
  _ ← _validate_new_feature self name xpath None None;
  Ok (set_feature_criteria self
        (put_feature_criterion (_extracted_feature_criteria self) name xpath None None)).

Definition add_extracted_feature (self : CountingFeatureExtractor) (name : string)
    (xpath text_re_mode text_re_pattern : option string) : result CountingFeatureExtractor :=
  _ ← _validate_new_feature self name xpath text_re_mode text_re_pattern;
  Ok (set_feature_criteria self
        (put_feature_criterion (_extracted_feature_criteria self) name xpath
           text_re_mode text_re_pattern)).

Definition all_feature_names (self : CountingFeatureExtractor) (h : heap) : list string :=
  let feature_names := [] in
  let feature_names := feature_names ++ heap_get h (_meta_features self) in
  let feature_names := feature_names ++ dict_keys (_extracted_feature_criteria self) in
  let feature_names := feature_names ++ dict_keys (_extracted_content_criteria self) in
  feature_names.

(** [extracted_features[name] = meta_features[name]] for every key, then the
    row is appended to [feature_counts]. *)
Definition set_meta_feature (meta_features : row) (extracted_features : row)
    (meta_feature_name : string) : result row :=
  v ← dict_item meta_features meta_feature_name;
  Ok (dict_set extracted_features meta_feature_name v).

Definition _append_features (self : CountingFeatureExtractor)
    (extracted_features meta_features : row) : result CountingFeatureExtractor :=
  extracted_features ←
    for_each (set_meta_feature meta_features) (dict_keys meta_features) extracted_features;
  Ok (set_feature_counts self (feature_counts self ++ [extracted_features])).

Section accumulation.
Context `{Lxml}.

(** Returns [self.feature_counts] next to the updated instance. *)
Definition accumulate_features_from_string (self : CountingFeatureExtractor)
    (text : string) (meta_features : row)
    : result (CountingFeatureExtractor * list row) :=
  extracted ← extract_features_from_string
                (_extracted_feature_criteria self) (_extracted_content_criteria self) text;
  self ← _append_features self extracted meta_features;
  Ok (self, feature_counts self).

Definition accumulate_features_from_bytes (self : CountingFeatureExtractor)
    (byte_string : list byte) (meta_features : row) : result CountingFeatureExtractor :=
  extracted ← extract_features_from_bytes
                (_extracted_feature_criteria self) (_extracted_content_criteria self)
                byte_string;
  _append_features self extracted meta_features.

Definition accumulate_features_from_file (self : CountingFeatureExtractor)
    (source_file : source) (meta_features : row) : result CountingFeatureExtractor :=
  extracted ← extract_features_from_file
                (_extracted_feature_criteria self) (_extracted_content_criteria self)
                source_file;
  _append_features self extracted meta_features.
End accumulation.

(** ** The batch pipeline of [http_data_extraction.py]

    Every input line is [payload,label]; the three [map] stages are applied
    to one record at a time. *)

(** [base64.b64decode(s)] and [b.decode("utf-8")] *)
Class Codecs : Type := {
  b64decode : string -> result (list byte);
  utf8_decode : list byte -> result string
}.

(** [x.split(",")] *)
Fixpoint split_comma_aux (x : string) (field : string) : list string :=
  match x with
  | EmptyString => [field]
  | String c rest =>
      if Ascii.eqb c "," then field :: split_comma_aux rest ""
      else split_comma_aux rest (field +:+ String c "")
  end.

Definition split_comma (x : string) : list string := split_comma_aux x "".

Section pipeline.
Context `{Lxml} `{Codecs}.

(** [lambda x: (base64.b64decode(x[0]), x[1])] *)
Definition decode_record (x : list string) : result (list byte * string) :=
  match x with
  | [] => Raise IndexError
  | payload :: fields =>
      decoded ← b64decode payload;
      match fields with
      | [] => Raise IndexError
      | label :: _ => Ok (decoded, label)
      end
  end.

(** [lambda x: (extractor.accumulate_features_from_string(x[0].decode("utf-8")), x[1])] *)
Definition extract_record (extractor : CountingFeatureExtractor)
    (x : list byte * string)
    : result (CountingFeatureExtractor * (list row * string)) :=
  text ← utf8_decode (fst x);
  '(extractor, rows) ← accumulate_features_from_string extractor text [];
  Ok (extractor, (rows, snd x)).

(** The three stages on one line of the input. *)
Definition process_line (extractor : CountingFeatureExtractor) (line : string)
    : result (CountingFeatureExtractor * (list row * string)) :=
  x ← decode_record (split_comma line);
  extract_record extractor x.
End pipeline.

(** ** Directories

    [extract_features_from_directory] and the script under
    [if __name__ == "__main__"] read a directory; [os.listdir] and [open]
    are what the caller provides here. *)

(** [s.endswith(suffix)]: a tail of [s] is [suffix]. *)
Fixpoint endswith (s suffix : string) : bool :=
  String.eqb s suffix
  || match s with
     | EmptyString => false
     | String _ rest => endswith rest suffix
     end.

(** [os.path.join(a, b)] of [posixpath] *)
Definition path_join (a b : string) : string :=
  if String.prefix "/" b then b
  else if String.eqb a "" || endswith a "/" then a +:+ b
  else a +:+ "/" +:+ b.

(** One turn of the loop of [extract_features_from_directory]; [file] is a
    name of the listing with what [open] returns for it.  The call
    [extract_features_from_file(feature_criteria, f)] gives two of the three
    positional arguments, which Python refuses with a [TypeError] before the
    body of the function runs. *)
Definition extract_features_from_directory_file (feature_criteria : criteria)
    (directory_path : string) (data_rows : list row) (file : string * result source)
    : result (list row) :=
  let file_name := fst file in
  if endswith file_name ".html" then
    f ← snd file;
    data ← (Raise (TypeError
              "extract_features_from_file() missing 1 required positional argument: 'source_file'")
            : result row);
    let data := dict_set data "path" (PyStr directory_path) in
    let data := dict_set data "file" (PyStr file_name) in
    Ok (data_rows ++ [data])
  else Ok data_rows.

Definition extract_features_from_directory (feature_criteria : criteria)
    (directory_path : string) (listing : list (string * result source))
    : result (list row) :=
  for_each (extract_features_from_directory_file feature_criteria directory_path) listing [].

(** The dictionaries that [directory_walker] returns. *)
Record page_data : Type := {
  requested_url : string;
  response_url : string;
  file_path : string
}.

(** An entry of a directory: a file, or a directory with its own entries.
    [request_url] and [response_url] are what [get_requested_url] and
    [get_response_url] return, or raise, for that directory. *)
#[warnings="-register-all"]
Inductive fs_entry : Type :=
| FsFile (file_name : string)
| FsDir (file_name : string) (request_url response_url : result string)
    (entries : list fs_entry).

Definition fs_name (e : fs_entry) : string :=
  match e with
  | FsFile file_name => file_name
  | FsDir file_name _ _ _ => file_name
  end.

(** One turn of the loop of [directory_walker], on the entry [e] of
    [current_directory]. *)
Fixpoint walk_entry (current_directory : string) (request_url response_url : result string)
    (e : fs_entry) {struct e} : result (list page_data) :=
  let file_name := fs_name e in
  let file_path := path_join current_directory file_name in
  if endswith file_name ".html" then
    requested ← request_url;
    response ← response_url;
    Ok [ {| requested_url := requested; response_url := response;
            file_path := file_path |} ]
  else
    match e with
    | FsFile _ => Ok []
    | FsDir _ sub_request_url sub_response_url entries =>
        (fix walk (es : list fs_entry) : result (list page_data) :=
           match es with
           | [] => Ok []
           | e' :: es' =>
               found ← walk_entry file_path sub_request_url sub_response_url e';
               data ← walk es';
               Ok (found ++ data)
           end) entries
    end.

Fixpoint directory_walker (current_directory : string)
    (request_url response_url : result string) (entries : list fs_entry)
    : result (list page_data) :=
  match entries with
  | [] => Ok []
  | e :: rest =>
      found ← walk_entry current_directory request_url response_url e;
      data ← directory_walker current_directory request_url response_url rest;
      Ok (found ++ data)
  end.

(** The meta features the script passes for a page. *)
Definition page_meta_features (page : page_data) : row :=
  [ ("requested_url", PyStr (requested_url page));
    ("response_url", PyStr (response_url page)) ].

Section main_script.
Context `{Lxml}.

(** The loop over the pages: a page whose parsing raises [XMLSyntaxError]
    is counted in [skipped], any other exception leaves the loop. *)
Fixpoint accumulate_pages (extractor : CountingFeatureExtractor) (data : list page_data)
    (skipped : nat) : result (CountingFeatureExtractor * nat) :=
  match data with
  | [] => Ok (extractor, skipped)
  | page :: rest =>
      match accumulate_features_from_file extractor (FileObject (file_path page))
              (page_meta_features page) with
      | Ok extractor' => accumulate_pages extractor' rest skipped
      | Raise XMLSyntaxError => accumulate_pages extractor rest (S skipped)
      | Raise e => Raise e
      end
  end.

(** Whether the page can be parsed. *)
Definition page_parses (page : page_data) : bool :=
  is_ok (etree_parse (FileObject (file_path page))).

(** The page parses or its parsing raises [XMLSyntaxError]. *)
Definition page_readable (page : page_data) : bool :=
  match etree_parse (FileObject (file_path page)) with
  | Ok _ | Raise XMLSyntaxError => true
  | Raise _ => false
  end.
End main_script.

(** The number of entries, at any depth, whose name ends with [.html];
    the entries of a directory with such a name are not looked at. *)
Fixpoint html_entries (e : fs_entry) : nat :=
  if endswith (fs_name e) ".html" then 1%nat
  else
    match e with
    | FsFile _ => 0%nat
    | FsDir _ _ _ entries =>
        (fix count (es : list fs_entry) : nat :=
           match es with
           | [] => 0%nat
           | e' :: es' => (html_entries e' + count es')%nat
           end) entries
    end.

Fixpoint html_entries_of (entries : list fs_entry) : nat :=
  match entries with
  | [] => 0%nat
  | e :: rest => (html_entries e + html_entries_of rest)%nat
  end.

(** The URLs of every directory below can be read. *)
Fixpoint urls_readable (e : fs_entry) : bool :=
  match e with
  | FsFile _ => true
  | FsDir _ request_url response_url entries =>
      is_ok request_url && is_ok response_url
      && (fix all (es : list fs_entry) : bool :=
            match es with
            | [] => true
            | e' :: es' => urls_readable e' && all es'
            end) entries
  end.

Fixpoint urls_readable_of (entries : list fs_entry) : bool :=
  match entries with
  | [] => true
  | e :: rest => urls_readable e && urls_readable_of rest
  end.

(** ** Sequences of calls

    A client accumulates documents one call after the other, each call with
    its own meta features; [accumulate_all] is that sequence of calls on one
    instance, stopping at the first exception. *)

Inductive document : Type :=
| FromString (text : string)
| FromBytes (byte_string : list byte)
| FromFile (source_file : source).

(** What the call hands to [etree.parse]. *)
Definition document_source (d : document) : source :=
  match d with
  | FromString text => StringIO text
  | FromBytes byte_string => BytesIO byte_string
  | FromFile source_file => source_file
  end.

Section calls.
Context `{Lxml}.

Definition accumulate (self : CountingFeatureExtractor) (call : document * row)
    : result CountingFeatureExtractor :=
  match fst call with
  | FromString text =>
      '(self, _) ← accumulate_features_from_string self text (snd call); Ok self
  | FromBytes byte_string => accumulate_features_from_bytes self byte_string (snd call)
  | FromFile source_file => accumulate_features_from_file self source_file (snd call)
  end.

Definition accumulate_all (self : CountingFeatureExtractor) (calls : list (document * row))
    : result CountingFeatureExtractor :=
  for_each accumulate calls self.

End calls.

(** The keys of a row are the names of both partitions and of the meta
    features of the call, each once. *)
Definition row_keys_exact (self : CountingFeatureExtractor) (r : row)
    (call : document * row) : Prop :=
  NoDup (dict_keys r)
  /\ forall name : string,
       name ∈ dict_keys r
       <-> (name ∈ dict_keys (_extracted_feature_criteria self)
            \/ name ∈ dict_keys (_extracted_content_criteria self))
           \/ name ∈ dict_keys (snd call).

(** ** A small implementation of the libraries

    Enough of [lxml], [re] and the codecs to run the code on concrete
    documents: tags without attributes, XPath expressions of the form
    [//tag], patterns that are literal text, standard base64 and the ASCII
    part of UTF-8. *)

Module Simple.

Record element : Type := { tag : string; text : option string }.

Definition finish (open : option (string * string)) (seen : list element)
    : list element :=
  match open with
  | Some (name, chars) =>
      seen ++ [{| tag := name; text := if String.eqb chars "" then None else Some chars |}]
  | None => seen
  end.

(** [in_tag] holds the characters read since [<]; [open] is the element
    whose text is being read, which ends at the next tag. *)
Fixpoint scan (s : string) (in_tag : option string) (open : option (string * string))
    (seen : list element) : list element :=
  match s with
  | EmptyString => finish open seen
  | String c rest =>
      match in_tag with
      | Some name =>
          if Ascii.eqb c ">" then
            if String.prefix "/" name then scan rest None None seen
            else scan rest None (Some (name, "")) seen
          else scan rest (Some (name +:+ String c "")) open seen
      | None =>
          if Ascii.eqb c "<" then scan rest (Some "") None (finish open seen)
          else
            match open with
            | Some (name, chars) =>
                scan rest None (Some (name, chars +:+ String c "")) seen
            | None => scan rest None None seen
            end
      end
  end.

Definition string_of_bytes (b : list byte) : string :=
  String.string_of_list_ascii (map ascii_of_byte b).

Definition parse (src : source) : result (list element) :=
  match src with
  | StringIO "" | BytesIO [] | FileObject _ => Raise XMLSyntaxError
  | StringIO s => Ok (scan s None None [])
  | BytesIO b => Ok (scan (string_of_bytes b) None None [])
  end.

Definition xpath (tree : list element) (expr : string) : list element :=
  filter (fun e => String.eqb ("//" +:+ tag e) expr = true) tree.

Fixpoint contains (pattern s : string) : bool :=
  String.prefix pattern s
  || match s with
     | EmptyString => false
     | String _ rest => contains pattern rest
     end.

#[export] Instance lxml : Lxml := {|
  ElementTree := list element;
  Element := element;
  element_text := text;
  tree_xpath := xpath;
  etree_parse := parse;
  re_match := String.prefix;
  re_search := contains
|}.

Definition b64_value (c : ascii) : option N :=
  let n := N_of_ascii c in
  if (65 <=? n)%N && (n <=? 90)%N then Some (n - 65)%N
  else if (97 <=? n)%N && (n <=? 122)%N then Some (n - 71)%N
  else if (48 <=? n)%N && (n <=? 57)%N then Some (n + 4)%N
  else if (n =? 43)%N then Some 62%N
  else if (n =? 47)%N then Some 63%N
  else None.

Definition byte_of_N (n : N) : byte := default x00 (Byte.of_N (n mod 256)).

(** Four characters carry 24 bits; [=] marks the bytes that are missing
    from the last group. *)
Definition b64_group (a b c d : ascii) : result (list byte) :=
  match b64_value a, b64_value b with
  | Some va, Some vb =>
      let b1 := byte_of_N (va * 4 + vb / 16) in
      if Ascii.eqb c "=" then
        if Ascii.eqb d "=" then Ok [b1] else Raise DecodeError
      else
        match b64_value c with
        | Some vc =>
            let b2 := byte_of_N ((vb mod 16) * 16 + vc / 4) in
            if Ascii.eqb d "=" then Ok [b1; b2]
            else
              match b64_value d with
              | Some vd => Ok [b1; b2; byte_of_N ((vc mod 4) * 64 + vd)]
              | None => Raise DecodeError
              end
        | None => Raise DecodeError
        end
  | _, _ => Raise DecodeError
  end.

Fixpoint b64_chars (cs : list ascii) : result (list byte) :=
  match cs with
  | [] => Ok []
  | a :: b :: c :: d :: rest =>
      group ← b64_group a b c d;
      bytes ← b64_chars rest;
      Ok (group ++ bytes)
  | _ => Raise DecodeError
  end.

Fixpoint ascii_chars (b : list byte) : result string :=
  match b with
  | [] => Ok ""
  | x :: rest =>
      if (Byte.to_N x <? 128)%N then
        s ← ascii_chars rest; Ok (String (ascii_of_byte x) s)
      else Raise DecodeError
  end.

#[export] Instance codecs : Codecs := {|
  b64decode := fun s => b64_chars (String.list_ascii_of_string s);
  utf8_decode := ascii_chars
|}.

End Simple.


(** ** Notions used in the statements *)

(** The concatenation of a list of strings, first to last. *)
Definition join_texts (texts : list string) : string := foldr String.app "" texts.

(** A loop body that does [data[k] = v] and nothing else, whatever [data] is. *)
Definition writes (body : row -> string -> result row) (k : string) (v : pyvalue) : Prop :=
  forall data, body data k = Ok (dict_set data k v).

(** Criteria that the extraction can evaluate.

    [load_feature_criteria] stores what the configuration holds, so a
    criterion can lack an expression or carry a mode that is neither
    ["match"] nor ["search"]; the first loop of the extraction raises on
    those. *)

Definition has_xpath (f : feature) : bool := negb (is_none (f_xpath f)).

Definition evaluable (f : feature) : bool :=
  has_xpath f
  && match f_text_re_mode f, f_text_re_pattern f with
     | Some mode, Some _ => String.eqb mode "match" || String.eqb mode "search"
     | _, _ => true
     end.

Definition all_values {V : Type} (p : V -> bool) (d : dict V) : bool :=
  forallb (fun kv => p (snd kv)) d.

Section statement_notions.
Context `{Lxml}.

(** The elements whose text the matcher accepts, in the order of [elements]. *)
Definition matching (pattern_matcher : string -> string -> bool) (pattern : string)
    (elements : list Element) : list Element :=
  List.filter (fun element => pattern_matcher pattern (_custom_str (element_text element)))
    elements.

(** The texts of [elements], [""] for an element without text. *)
Definition texts (elements : list Element) : list string :=
  map (fun element => _custom_str (element_text element)) elements.

End statement_notions.

(** ** Concrete inputs

    The configuration and the page of the specification's example: a count
    criterion [num_forms], a content criterion [title_text], and a page with
    two forms and the title [Hello]. *)

Definition plain (expr : string) : feature :=
  {| f_xpath := Some expr; f_text_re_mode := None; f_text_re_pattern := None |}.

Definition filtered (expr mode pattern : string) : feature :=
  {| f_xpath := Some expr; f_text_re_mode := Some mode; f_text_re_pattern := Some pattern |}.

Definition entry (name expr : string) : config_entry :=
  {| e_name := Some name; e_xpath := Str expr;
     e_text_re_mode := Absent; e_text_re_pattern := Absent |}.

Definition example_config : rubric :=
  {| features_to_count := Some [entry "num_forms" "//form"];
     text_to_extract := Some [entry "title_text" "//title"] |}.

Definition example_page : string :=
  "<html><head><title>Hello</title></head><body><form><p>Log in</p></form><form><p>Sign up</p><p></p></form></body></html>".

Definition example_tree : list Simple.element :=
  [ {| Simple.tag := "html"; Simple.text := None |};
    {| Simple.tag := "head"; Simple.text := None |};
    {| Simple.tag := "title"; Simple.text := Some "Hello" |};
    {| Simple.tag := "body"; Simple.text := None |};
    {| Simple.tag := "form"; Simple.text := None |};
    {| Simple.tag := "p"; Simple.text := Some "Log in" |};
    {| Simple.tag := "form"; Simple.text := None |};
    {| Simple.tag := "p"; Simple.text := Some "Sign up" |};
    {| Simple.tag := "p"; Simple.text := None |} ].

Definition example_counts : criteria :=
  [ ("num_forms", plain "//form");
    ("g_paragraphs", filtered "//p" "search" "g");
    ("sign_paragraphs", filtered "//p" "match" "Sign") ].

Definition example_contents : criteria :=
  [ ("title_text", plain "//title"); ("paragraph_text", plain "//p") ].

(** A configuration whose two count criteria have the same name, and one
    whose criterion has a mode that is neither ["match"] nor ["search"]. *)
Definition duplicate_config : rubric :=
  {| features_to_count := Some [entry "links" "//a"; entry "links" "//link"];
     text_to_extract := Some [] |}.

Definition bad_mode_config : rubric :=
  {| features_to_count :=
       Some [ {| e_name := Some "links"; e_xpath := Str "//a";
                 e_text_re_mode := Str "contains"; e_text_re_pattern := Absent |};
              {| e_name := Some "forms"; e_xpath := Str "//form";
                 e_text_re_mode := Str "contains"; e_text_re_pattern := Str "x" |} ];
     text_to_extract := Some [] |}.

(** The instance that [CountingFeatureExtractor(path)] builds from
    [example_config]. *)
Definition example_extractor : CountingFeatureExtractor :=
  {| _extracted_feature_criteria := [("num_forms", plain "//form")];
     _extracted_content_criteria := [("title_text", plain "//title")];
     _meta_features := default_meta_features;
     feature_counts := [] |}.

(** The instance that [CountingFeatureExtractor()] builds. *)
Definition empty_extractor : CountingFeatureExtractor :=
  {| _extracted_feature_criteria := [];
     _extracted_content_criteria := [];
     _meta_features := default_meta_features;
     feature_counts := [] |}.

(** A configuration with a count criterion called [requested_url], for an
    instance whose meta features are [requested_url] and [response_url]. *)
Definition url_config : rubric :=
  {| features_to_count := Some [entry "requested_url" "//a"];
     text_to_extract := Some [entry "title_text" "//title"] |}.

Definition url_heap : loc * heap :=
  heap_alloc module_heap ["requested_url"; "response_url"].

(** Two calls on the example instance, and a line of the batch input:
    the base64 form of [<title>Hi</title>] and a label. *)
Definition example_calls : list (document * row) :=
  [ (FromString example_page,
     [("requested_url", PyStr "http://a.example/"); ("response_url", PyStr "http://a.example/home")]);
    (FromString "<title>Hi</title>", [("requested_url", PyStr "http://b.example/")]) ].

Definition example_line : string := "PHRpdGxlPkhpPC90aXRsZT4=,site-1".

(** ** Inputs of the further properties *)

(** The new instance after [add_extracted_feature("num_forms", "//form", None, None)]. *)
Definition registered_extractor : CountingFeatureExtractor :=
  set_feature_criteria empty_extractor [("num_forms", plain "//form")].

(** An entry of the configuration that has the keys the loader reads with
    [feature["name"]] and [feature["xpath"]]. *)
Definition complete_entry (e : config_entry) : bool :=
  negb (is_none (e_name e))
  && match e_xpath e with Absent => false | Null | Str _ => true end.

(** The criterion the loader stores for an entry of [features_to_count],
    and for an entry of [text_to_extract]. *)
Definition counted_feature (e : config_entry) : feature :=
  {| f_xpath := json_item_or_none (e_xpath e);
     f_text_re_mode := json_item_or_none (e_text_re_mode e);
     f_text_re_pattern := json_item_or_none (e_text_re_pattern e) |}.

Definition extracted_feature (e : config_entry) : feature :=
  {| f_xpath := json_item_or_none (e_xpath e);
     f_text_re_mode := None;
     f_text_re_pattern := None |}.

(** The last entry of the list that has the given name. *)
Fixpoint last_entry (name : string) (entries : list config_entry) : option config_entry :=
  match entries with
  | [] => None
  | e :: rest =>
      match last_entry name rest with
      | Some e' => Some e'
      | None =>
          match e_name e with
          | Some n => if String.eqb n name then Some e else None
          | None => None
          end
      end
  end.



(** An instance with a meta-feature list of its own, the cell that
    [url_heap] allocates. *)
Definition own_list_extractor : CountingFeatureExtractor :=
  {| _extracted_feature_criteria := [];
     _extracted_content_criteria := [];
     _meta_features := fst url_heap;
     feature_counts := [] |}.

(** A directory tree: two pages at different depths, the files that hold
    the URLs, and a directory whose name ends with [.html]. *)
Definition example_entries : list fs_entry :=
  [ FsFile "request_meta.json";
    FsFile "index.html";
    FsDir "about" (Ok "http://a.example/about") (Ok "http://a.example/about/")
      [ FsFile "team.html"; FsFile "photo.png" ];
    FsDir "old.html" (Ok "http://a.example/old") (Ok "http://a.example/old")
      [ FsFile "inner.html" ] ].

(** The small implementation of the libraries with two files on disk, a
    page and an empty file, which the parser refuses as lxml refuses an
    empty document.  Paths that are not on this disk are not used; for them
    the exception stands for the one lxml has for a file it cannot read. *)
Module Disk.

Definition files : list (string * string) :=
  [ ("./data/index.html", example_page); ("./data/empty.html", "") ].

Definition parse (src : source) : result (list Simple.element) :=
  match src with
  | FileObject path =>
      match dict_get files path with
      | Some content => Simple.parse (StringIO content)
      | None => Raise (KeyError path)
      end
  | _ => Simple.parse src
  end.

#[export] Instance lxml : Lxml := {|
  ElementTree := list Simple.element;
  Element := Simple.element;
  element_text := Simple.text;
  tree_xpath := Simple.xpath;
  etree_parse := parse;
  re_match := String.prefix;
  re_search := Simple.contains
|}.

End Disk.

(** The pages of the script for that disk, and the instance the script
    builds from [example_config] with the list of [url_heap]. *)
Definition example_pages : list page_data :=
  [ {| requested_url := "http://a.example/"; response_url := "http://a.example/home";
       file_path := "./data/index.html" |};
    {| requested_url := "http://a.example/e"; response_url := "http://a.example/e";
       file_path := "./data/empty.html" |} ].

Definition script_extractor : CountingFeatureExtractor :=
  {| _extracted_feature_criteria := [("num_forms", plain "//form")];
     _extracted_content_criteria := [("title_text", plain "//title")];
     _meta_features := fst url_heap;
     feature_counts := [] |}.

(** [("," in s)] *)
Fixpoint has_comma (s : string) : bool :=
  match s with
  | EmptyString => false
  | String c rest => Ascii.eqb c "," || has_comma rest
  end.

(** * Properties *)

(** ** Strings *)

Lemma string_app_cons (a : ascii) (s t : string) :
  String a s +:+ t = String a (s +:+ t).
Proof. reflexivity. Qed.

Lemma string_app_nil_r (s : string) : s +:+ "" = s.
Proof.
  induction s as [|a s IH]; [reflexivity|].
  rewrite string_app_cons, IH. reflexivity.
Qed.

Lemma string_app_assoc (s t u : string) : s +:+ (t +:+ u) = (s +:+ t) +:+ u.
Proof.
  induction s as [|a s IH]; [reflexivity|].
  rewrite !string_app_cons, IH. reflexivity.
Qed.

Lemma list_mem_true (name : string) (l : list string) :
  list_mem name l = true <-> name ∈ l.
Proof.
  unfold list_mem. rewrite existsb_exists. split.
  - intros (x & Hx & Heq). apply String.eqb_eq in Heq. subst x.
    by apply list_elem_of_In.
  - intros Hin. exists name. split; [by apply list_elem_of_In|apply String.eqb_refl].
Qed.

Lemma list_mem_false (name : string) (l : list string) :
  list_mem name l = false <-> name ∉ l.
Proof.
  rewrite <- list_mem_true. destruct (list_mem name l); split; congruence.
Qed.

(** ** Dictionaries *)

Section dict_facts.
Context {V : Type}.
Implicit Types (d : dict V) (k : string) (v : V).

Lemma dict_get_set_eq d k v : dict_get (dict_set d k v) k = Some v.
Proof.
  induction d as [|[k' v'] d IH]; simpl.
  - by rewrite String.eqb_refl.
  - destruct (String.eqb k' k) eqn:E; simpl; rewrite E; [done|apply IH].
Qed.

Lemma dict_get_set_ne d k k' v :
  k <> k' -> dict_get (dict_set d k v) k' = dict_get d k'.
Proof.
  intros Hne. induction d as [|[k0 v0] d IH]; simpl.
  - apply String.eqb_neq in Hne. by rewrite Hne.
  - destruct (String.eqb k0 k) eqn:E; simpl.
    + apply String.eqb_eq in E. subst k0.
      apply String.eqb_neq in Hne. by rewrite Hne.
    + by rewrite IH.
Qed.

Lemma dict_set_set d k v v' : dict_set (dict_set d k v) k v' = dict_set d k v'.
Proof.
  induction d as [|[k0 v0] d IH]; simpl.
  - by rewrite String.eqb_refl.
  - destruct (String.eqb k0 k) eqn:E; simpl; rewrite E; [done|by rewrite IH].
Qed.

Lemma dict_set_id d k v : dict_get d k = Some v -> dict_set d k v = d.
Proof.
  induction d as [|[k0 v0] d IH]; simpl; [done|].
  destruct (String.eqb k0 k) eqn:E.
  - intros [= ->]. done.
  - intros Hget. by rewrite IH.
Qed.

Lemma dict_mem_keys k d : dict_mem k d = true <-> k ∈ dict_keys d.
Proof.
  unfold dict_mem, dict_keys. induction d as [|[k0 v0] d IH]; simpl.
  - split; [done|]. intros Hin. inversion Hin.
  - rewrite elem_of_cons. destruct (String.eqb k0 k) eqn:E.
    + apply String.eqb_eq in E. subst. split; auto.
    + apply String.eqb_neq in E. rewrite IH. split; [auto|].
      intros [->|?]; [done|auto].
Qed.

Lemma dict_mem_false_keys k d : dict_mem k d = false <-> k ∉ dict_keys d.
Proof.
  rewrite <- dict_mem_keys. destruct (dict_mem k d); split; congruence.
Qed.

Lemma dict_get_is_Some k d : is_Some (dict_get d k) <-> k ∈ dict_keys d.
Proof.
  rewrite <- dict_mem_keys. unfold dict_mem.
  destruct (dict_get d k) as [v|]; split; done.
Qed.

Lemma dict_keys_set d k v :
  dict_keys (dict_set d k v)
  = if dict_mem k d then dict_keys d else dict_keys d ++ [k].
Proof.
  unfold dict_mem, dict_keys. induction d as [|[k0 v0] d IH]; simpl; [done|].
  destruct (String.eqb k0 k) eqn:E; simpl; [done|].
  rewrite IH. by destruct (dict_get d k).
Qed.

Lemma elem_of_dict_keys_set d k v x :
  x ∈ dict_keys (dict_set d k v) <-> x ∈ dict_keys d \/ x = k.
Proof.
  rewrite dict_keys_set. destruct (dict_mem k d) eqn:E.
  - apply dict_mem_keys in E. split; [auto|]. intros [?| ->]; done.
  - rewrite elem_of_app, list_elem_of_singleton. done.
Qed.

Lemma NoDup_dict_keys_set d k v :
  NoDup (dict_keys d) -> NoDup (dict_keys (dict_set d k v)).
Proof.
  intros Hnd. rewrite dict_keys_set. destruct (dict_mem k d) eqn:E; [done|].
  apply dict_mem_false_keys in E. apply NoDup_app. split_and!; [done| |].
  - intros x Hx ->%list_elem_of_singleton. done.
  - apply NoDup_singleton.
Qed.

Lemma length_dict_set d k v :
  length (dict_set d k v)
  = if dict_mem k d then length d else S (length d).
Proof.
  unfold dict_mem. induction d as [|[k0 v0] d IH]; simpl; [done|].
  destruct (String.eqb k0 k) eqn:E; simpl; [done|].
  rewrite IH. by destruct (dict_get d k).
Qed.
End dict_facts.

(** ** Loops *)

Lemma bind_Ok {A B} (m : result A) (f : A -> result B) (b : B) :
  m ≫= f = Ok b <-> exists a, m = Ok a /\ f a = Ok b.
Proof.
  destruct m as [a|e]; simpl; split.
  - eauto.
  - by intros (? & [= <-] & ?).
  - done.
  - by intros (? & ? & ?).
Qed.

Lemma writes_inj body k v v' : writes body k v -> writes body k v' -> v = v'.
Proof.
  intros Hv Hv'. specialize (Hv []). rewrite (Hv' []) in Hv.
  simpl in Hv. congruence.
Qed.

Lemma for_each_writes (body : row -> string -> result row) (ks : list string) :
  (forall k, k ∈ ks -> exists v, writes body k v) ->
  forall data, exists data',
    for_each body ks data = Ok data'
    /\ (forall x, x ∈ dict_keys data' <-> x ∈ dict_keys data \/ x ∈ ks)
    /\ (forall k v, k ∈ ks -> writes body k v -> dict_get data' k = Some v)
    /\ (forall k, k ∉ ks -> dict_get data' k = dict_get data k)
    /\ (NoDup (dict_keys data) -> NoDup (dict_keys data')).
Proof.
  induction ks as [|k0 ks IH]; intros Hbody data.
  - exists data. simpl. split_and!; try done.
    + intros x. split; [auto|]. intros [?|Hin]; [done|inversion Hin].
    + intros k v Hin. inversion Hin.
  - destruct (Hbody k0) as [v0 Hv0]; [left|].
    destruct (IH (fun k Hk => Hbody k (list_elem_of_further _ _ _ Hk))
                 (dict_set data k0 v0)) as (data' & Hrun & Hkeys & Hget & Hframe & Hnd).
    exists data'. simpl. rewrite Hv0. simpl. split_and!.
    + done.
    + intros x. rewrite Hkeys, elem_of_dict_keys_set, elem_of_cons. tauto.
    + intros k v Hin Hw. destruct (decide (k ∈ ks)) as [Hks|Hks]; [by apply Hget|].
      apply elem_of_cons in Hin as [->|?]; [|done].
      rewrite (Hframe _ Hks), dict_get_set_eq.
      f_equal. exact (writes_inj _ _ _ _ Hv0 Hw).
    + intros k Hk. apply not_elem_of_cons in Hk as [Hne Hk].
      rewrite (Hframe _ Hk). apply dict_get_set_ne. congruence.
    + intros Hd. apply Hnd. by apply NoDup_dict_keys_set.
Qed.

Lemma all_values_get {V : Type} (p : V -> bool) (d : dict V) (k : string) (v : V) :
  all_values p d = true -> dict_get d k = Some v -> p v = true.
Proof.
  unfold all_values. induction d as [|[k0 v0] d IH]; simpl; [done|].
  intros [Hv0 Hd]%andb_prop. destruct (String.eqb k0 k); [congruence|auto].
Qed.

Lemma all_values_set {V : Type} (p : V -> bool) (d : dict V) (k : string) (v : V) :
  all_values p d = true -> p v = true -> all_values p (dict_set d k v) = true.
Proof.
  unfold all_values. induction d as [|[k0 v0] d IH]; simpl.
  - intros _ ->. done.
  - intros [Hv0 Hd]%andb_prop Hv. destruct (String.eqb k0 k); simpl.
    + by rewrite Hv, Hd.
    + by rewrite Hv0, IH.
Qed.

Section extraction_facts.
Context `{Lxml}.

Lemma count_matching_spec matcher pattern name elements :
  forall data c,
    dict_get data name = Some (PyInt c) ->
    count_matching matcher pattern name elements data
    = Ok (dict_set data name
            (PyInt (c + Z.of_nat (length (matching matcher pattern elements))))).
Proof.
  induction elements as [|e elements IH]; intros data c Hc; simpl.
  - rewrite Z.add_0_r. by rewrite dict_set_id.
  - destruct (matcher pattern (_custom_str (element_text e))); simpl.
    + unfold incr_item. rewrite Hc. simpl.
      rewrite (IH _ (c + 1)) by apply dict_get_set_eq.
      rewrite dict_set_set. do 3 f_equal. lia.
    + by rewrite (IH _ c).
Qed.

Lemma concat_texts_spec name elements :
  forall data t,
    dict_get data name = Some (PyStr t) ->
    concat_texts name elements data
    = Ok (dict_set data name (PyStr (t +:+ join_texts (texts elements)))).
Proof.
  induction elements as [|e elements IH]; intros data t Ht; simpl.
  - rewrite string_app_nil_r. by rewrite dict_set_id.
  - unfold append_item. rewrite Ht. simpl.
    rewrite (IH _ (t +:+ _custom_str (element_text e))) by apply dict_get_set_eq.
    by rewrite dict_set_set, string_app_assoc.
Qed.

Section one_criterion.
Variables (feature_criteria : criteria) (html_tree : ElementTree).
Variables (name : string) (f : feature) (expr : string).
Hypothesis Hget : dict_get feature_criteria name = Some f.
Hypothesis Hxpath : f_xpath f = Some expr.

Lemma count_feature_no_filter :
  f_text_re_mode f = None \/ f_text_re_pattern f = None ->
  writes (count_feature feature_criteria html_tree) name
    (PyInt (Z.of_nat (length (tree_xpath html_tree expr)))).
Proof.
  intros Hnone data. unfold count_feature, dict_item.
  rewrite Hget. simpl. rewrite Hxpath. simpl.
  destruct Hnone as [-> | ->]; [done|]. by destruct (f_text_re_mode f).
Qed.

Lemma count_feature_match pattern :
  f_text_re_mode f = Some "match" -> f_text_re_pattern f = Some pattern ->
  writes (count_feature feature_criteria html_tree) name
    (PyInt (Z.of_nat (length (matching re_match pattern (tree_xpath html_tree expr))))).
Proof.
  intros Hmode Hpattern data. unfold count_feature, dict_item.
  rewrite Hget. simpl. rewrite Hxpath. simpl. rewrite Hmode, Hpattern. simpl.
  rewrite (count_matching_spec _ _ _ _ _ 0) by apply dict_get_set_eq.
  by rewrite dict_set_set.
Qed.

Lemma count_feature_search pattern :
  f_text_re_mode f = Some "search" -> f_text_re_pattern f = Some pattern ->
  writes (count_feature feature_criteria html_tree) name
    (PyInt (Z.of_nat (length (matching re_search pattern (tree_xpath html_tree expr))))).
Proof.
  intros Hmode Hpattern data. unfold count_feature, dict_item.
  rewrite Hget. simpl. rewrite Hxpath. simpl. rewrite Hmode, Hpattern. simpl.
  rewrite (count_matching_spec _ _ _ _ _ 0) by apply dict_get_set_eq.
  by rewrite dict_set_set.
Qed.

Lemma content_feature_writes :
  writes (content_feature feature_criteria html_tree) name
    (PyStr (join_texts (texts (tree_xpath html_tree expr)))).
Proof.
  intros data. unfold content_feature, dict_item.
  rewrite Hget. simpl. rewrite Hxpath. simpl.
  rewrite (concat_texts_spec _ _ _ "") by apply dict_get_set_eq.
  by rewrite dict_set_set.
Qed.
End one_criterion.

Lemma count_feature_evaluable feature_criteria html_tree name :
  all_values evaluable feature_criteria = true ->
  name ∈ dict_keys feature_criteria ->
  exists v, writes (count_feature feature_criteria html_tree) name v.
Proof.
  intros Hall [f Hf]%dict_get_is_Some.
  pose proof (all_values_get _ _ _ _ Hall Hf) as Hev.
  unfold evaluable, has_xpath in Hev. apply andb_prop in Hev as [Hx Hmode].
  destruct (f_xpath f) as [expr|] eqn:Hexpr; [|done].
  destruct (f_text_re_mode f) as [mode|] eqn:Hm;
    [|eexists; eapply count_feature_no_filter; eauto].
  destruct (f_text_re_pattern f) as [pattern|] eqn:Hp;
    [|eexists; eapply count_feature_no_filter; eauto].
  apply orb_prop in Hmode as [->%String.eqb_eq | ->%String.eqb_eq].
  - eexists; eapply count_feature_match; eauto.
  - eexists; eapply count_feature_search; eauto.
Qed.

Lemma content_feature_evaluable content_criteria html_tree name :
  all_values has_xpath content_criteria = true ->
  name ∈ dict_keys content_criteria ->
  exists v, writes (content_feature content_criteria html_tree) name v.
Proof.
  intros Hall [f Hf]%dict_get_is_Some.
  pose proof (all_values_get _ _ _ _ Hall Hf) as Hx. unfold has_xpath in Hx.
  destruct (f_xpath f) as [expr|] eqn:Hexpr; [|done].
  eexists; eapply content_feature_writes; eauto.
Qed.

(** What [extract_features_from_tree] returns when both partitions can be
    evaluated: a row whose keys are the names of the two partitions, a
    content criterion's value under its name, and a count criterion's
    value under its name unless a content criterion has the same name. *)
Lemma extract_features_from_tree_spec feature_criteria content_criteria html_tree :
  all_values evaluable feature_criteria = true ->
  all_values has_xpath content_criteria = true ->
  exists data,
    extract_features_from_tree feature_criteria content_criteria html_tree = Ok data
    /\ (forall x, x ∈ dict_keys data
                  <-> x ∈ dict_keys feature_criteria \/ x ∈ dict_keys content_criteria)
    /\ NoDup (dict_keys data)
    /\ (forall k v, k ∈ dict_keys content_criteria ->
                    writes (content_feature content_criteria html_tree) k v ->
                    dict_get data k = Some v)
    /\ (forall k v, k ∈ dict_keys feature_criteria ->
                    k ∉ dict_keys content_criteria ->
                    writes (count_feature feature_criteria html_tree) k v ->
                    dict_get data k = Some v).
Proof.
  intros Hfc Hcc. unfold extract_features_from_tree.
  destruct (for_each_writes (count_feature feature_criteria html_tree)
              (dict_keys feature_criteria)
              (fun k Hk => count_feature_evaluable _ html_tree k Hfc Hk) [])
    as (data1 & Hrun1 & Hkeys1 & Hget1 & _ & Hnd1).
  destruct (for_each_writes (content_feature content_criteria html_tree)
              (dict_keys content_criteria)
              (fun k Hk => content_feature_evaluable _ html_tree k Hcc Hk) data1)
    as (data & Hrun & Hkeys & Hget & Hframe & Hnd).
  exists data. rewrite Hrun1. simpl. split_and!.
  - exact Hrun.
  - intros x. rewrite Hkeys, Hkeys1. simpl. rewrite elem_of_nil. tauto.
  - apply Hnd, Hnd1. apply NoDup_nil_2.
  - exact Hget.
  - intros k v Hk Hnk Hw. rewrite (Hframe _ Hnk). by apply Hget1.
Qed.
End extraction_facts.

(** ** Extraction of one row *)

Example example_page_parses :
  @etree_parse Simple.lxml (StringIO example_page) = Ok example_tree.
Proof. reflexivity. Qed.

Example example_row :
  @extract_features_from_tree Simple.lxml example_counts example_contents example_tree
  = Ok [ ("num_forms", PyInt 2); ("g_paragraphs", PyInt 2);
         ("sign_paragraphs", PyInt 1); ("title_text", PyStr "Hello");
         ("paragraph_text", PyStr "Log inSign up") ].
Proof. reflexivity. Qed.

(** C3: when the criteria can be evaluated and [name] is a count criterion
    without a text filter (and not also the name of a content criterion),
    the row returned for a document holds under [name] the number of
    elements that the criterion's XPath matches in the document. *)
Theorem extract_count_no_filter `{Lxml} (feature_criteria content_criteria : criteria)
    (html_tree : ElementTree) (name : string) (f : feature) (expr : string) :
  all_values evaluable feature_criteria = true ->
  all_values has_xpath content_criteria = true ->
  dict_get feature_criteria name = Some f ->
  f_xpath f = Some expr ->
  f_text_re_mode f = None \/ f_text_re_pattern f = None ->
  dict_mem name content_criteria = false ->
  exists data,
    extract_features_from_tree feature_criteria content_criteria html_tree = Ok data
    /\ dict_get data name = Some (PyInt (Z.of_nat (length (tree_xpath html_tree expr)))).
Proof.
  intros Hfc Hcc Hget Hexpr Hnone Hfresh.
  destruct (extract_features_from_tree_spec _ _ html_tree Hfc Hcc)
    as (data & Hrun & _ & _ & _ & Hcount).
  exists data. split; [done|]. apply Hcount.
  - apply dict_get_is_Some. by rewrite Hget.
  - by apply dict_mem_false_keys.
  - by eapply count_feature_no_filter.
Qed.

Lemma extract_count_no_filter_witness :
  exists data,
    @extract_features_from_tree Simple.lxml example_counts example_contents example_tree
    = Ok data
    /\ dict_get data "num_forms" = Some (PyInt 2).
Proof.
  apply (@extract_count_no_filter Simple.lxml example_counts example_contents
           example_tree "num_forms" (plain "//form") "//form");
    first [reflexivity | left; reflexivity].
Defined.

(** C4: when the criteria can be evaluated and [name] is a count criterion
    with a text filter (a mode and a pattern), the row holds under [name]:
    in [search] mode the number of matched elements in whose text
    [re.search] finds the pattern, in [match] mode the number of matched
    elements at the start of whose text [re.match] finds it; the text of an
    element without text is the empty string. *)
Theorem extract_count_with_filter `{Lxml} (feature_criteria content_criteria : criteria)
    (html_tree : ElementTree) (name : string) (f : feature) (expr mode pattern : string) :
  all_values evaluable feature_criteria = true ->
  all_values has_xpath content_criteria = true ->
  dict_get feature_criteria name = Some f ->
  f_xpath f = Some expr ->
  f_text_re_mode f = Some mode ->
  f_text_re_pattern f = Some pattern ->
  dict_mem name content_criteria = false ->
  exists data,
    extract_features_from_tree feature_criteria content_criteria html_tree = Ok data
    /\ (mode = "search" ->
        dict_get data name
        = Some (PyInt (Z.of_nat (length
             (List.filter (fun element =>
                             re_search pattern (_custom_str (element_text element)))
                (tree_xpath html_tree expr))))))
    /\ (mode = "match" ->
        dict_get data name
        = Some (PyInt (Z.of_nat (length
             (List.filter (fun element =>
                             re_match pattern (_custom_str (element_text element)))
                (tree_xpath html_tree expr)))))).
Proof.
  intros Hfc Hcc Hget Hexpr Hmode Hpattern Hfresh.
  destruct (extract_features_from_tree_spec _ _ html_tree Hfc Hcc)
    as (data & Hrun & _ & _ & _ & Hcount).
  assert (name ∈ dict_keys feature_criteria) as Hin
    by (apply dict_get_is_Some; by rewrite Hget).
  apply dict_mem_false_keys in Hfresh.
  exists data. split_and!; [done| |]; intros ->; apply Hcount; try done.
  - by eapply count_feature_search.
  - by eapply count_feature_match.
Qed.

Lemma extract_count_with_filter_witness :
  exists data,
    @extract_features_from_tree Simple.lxml example_counts example_contents example_tree
    = Ok data
    /\ ("search" = "search" -> dict_get data "g_paragraphs" = Some (PyInt 2))
    /\ ("search" = "match" -> dict_get data "g_paragraphs" = Some (PyInt 0)).
Proof.
  apply (@extract_count_with_filter Simple.lxml example_counts example_contents
           example_tree "g_paragraphs" (filtered "//p" "search" "g")
           "//p" "search" "g"); reflexivity.
Defined.

(** C5: when the criteria can be evaluated and [name] is a content
    criterion, the row holds under [name] the concatenation of the texts of
    the elements that the criterion's XPath matches, in the order in which
    the XPath evaluation lists them (document order), an element without
    text contributing the empty string. *)
Theorem extract_content_concatenation `{Lxml} (feature_criteria content_criteria : criteria)
    (html_tree : ElementTree) (name : string) (f : feature) (expr : string) :
  all_values evaluable feature_criteria = true ->
  all_values has_xpath content_criteria = true ->
  dict_get content_criteria name = Some f ->
  f_xpath f = Some expr ->
  exists data,
    extract_features_from_tree feature_criteria content_criteria html_tree = Ok data
    /\ dict_get data name
       = Some (PyStr (join_texts
                        (map (fun element => _custom_str (element_text element))
                           (tree_xpath html_tree expr)))).
Proof.
  intros Hfc Hcc Hget Hexpr.
  destruct (extract_features_from_tree_spec _ _ html_tree Hfc Hcc)
    as (data & Hrun & _ & _ & Hcontent & _).
  exists data. split; [done|]. apply Hcontent.
  - apply dict_get_is_Some. by rewrite Hget.
  - by eapply content_feature_writes.
Qed.

Lemma extract_content_concatenation_witness :
  exists data,
    @extract_features_from_tree Simple.lxml example_counts example_contents example_tree
    = Ok data
    /\ dict_get data "paragraph_text" = Some (PyStr "Log inSign up").
Proof.
  apply (@extract_content_concatenation Simple.lxml example_counts example_contents
           example_tree "paragraph_text" (plain "//p") "//p"); reflexivity.
Defined.

(** ** Registration of criteria *)

Example example_extractor_built : __init__ (Some example_config) None = Ok example_extractor.
Proof. reflexivity. Qed.

Example empty_extractor_built : __init__ None None = Ok empty_extractor.
Proof. reflexivity. Qed.

(** The first test of [_validate_new_feature] fires when the name is a
    count criterion or when there is any content criterion at all. *)
Lemma validate_new_feature_name_test (self : CountingFeatureExtractor) (name : string)
    (xpath text_re_mode text_re_pattern : option string) :
  _validate_new_feature self name xpath text_re_mode text_re_pattern
  = Raise (ValueError ("There is already a feature named '" +:+ name +:+ "'."))
  <-> name ∈ dict_keys (_extracted_feature_criteria self)
      \/ _extracted_content_criteria self <> [].
Proof.
  unfold _validate_new_feature.
  destruct (dict_mem name (_extracted_feature_criteria self)) eqn:Hmem; simpl.
  - apply dict_mem_keys in Hmem. split; auto.
  - apply dict_mem_false_keys in Hmem.
    destruct (_extracted_content_criteria self) as [|kv cc] eqn:Hcc; simpl.
    + split; [|intros [?|?]; done].
      intros Hraise. exfalso.
      destruct (is_none xpath); [done|].
      destruct (_ || _); [done|]. destruct (_ && _); done.
    + split; auto.
Qed.

(** With no content criterion registered, a count criterion with a fresh
    name, an expression and no text filter is accepted. *)
Lemma add_extracted_feature_fresh (self : CountingFeatureExtractor) (name expr : string) :
  _extracted_content_criteria self = [] ->
  name ∉ dict_keys (_extracted_feature_criteria self) ->
  add_extracted_feature self name (Some expr) None None
  = Ok (set_feature_criteria self
          (dict_set (_extracted_feature_criteria self) name (plain expr))).
Proof.
  intros Hcc Hfresh%dict_mem_false_keys.
  unfold add_extracted_feature, _validate_new_feature. by rewrite Hfresh, Hcc.
Qed.

(** C1: an instance built from the example configuration has one count
    criterion and one content criterion; registering the name [num_links],
    which neither partition holds, raises "There is already a feature named
    'num_links'." from both registration methods. *)
Theorem fresh_name_rejected :
  dict_mem "num_links" (_extracted_feature_criteria example_extractor) = false
  /\ dict_mem "num_links" (_extracted_content_criteria example_extractor) = false
  /\ add_extracted_feature example_extractor "num_links" (Some "//a") None None
     = Raise (ValueError "There is already a feature named 'num_links'.")
  /\ add_extracted_content example_extractor "num_links" (Some "//a")
     = Raise (ValueError "There is already a feature named 'num_links'.").
Proof. repeat split. Qed.

(** What [add_extracted_content] does when it succeeds: the criterion goes
    to the count partition, and the content partition is empty before and
    after. *)
Lemma add_extracted_content_Ok (self self' : CountingFeatureExtractor) (name : string)
    (xpath : option string) :
  add_extracted_content self name xpath = Ok self' ->
  _extracted_content_criteria self' = []
  /\ dict_get (_extracted_feature_criteria self') name
     = Some {| f_xpath := xpath; f_text_re_mode := None; f_text_re_pattern := None |}.
Proof.
  unfold add_extracted_content. intros (u & Hvalid & [= <-])%bind_Ok. simpl. split.
  - unfold _validate_new_feature in Hvalid.
    destruct (_extracted_content_criteria self); [done|].
    by rewrite orb_true_r in Hvalid.
  - apply dict_get_set_eq.
Qed.

(** C2: on a new instance, [add_extracted_content "title_text" "//title"]
    succeeds and leaves the content partition empty; the row extracted from
    the example page then holds the integer 1 under [title_text], where the
    concatenated text is ["Hello"]. *)
Theorem add_extracted_content_yields_count :
  exists self,
    add_extracted_content empty_extractor "title_text" (Some "//title") = Ok self
    /\ _extracted_content_criteria self = []
    /\ @extract_features_from_tree Simple.lxml
         (_extracted_feature_criteria self) (_extracted_content_criteria self) example_tree
       = Ok [("title_text", PyInt 1)]
    /\ join_texts (@texts Simple.lxml (Simple.xpath example_tree "//title")) = "Hello".
Proof. eexists. repeat split. Qed.

(** ** Loading a configuration *)

(** C6: loading a configuration whose two count criteria share the name
    [links] succeeds and keeps the second one; a configuration with a mode
    without pattern and with the unknown mode [contains] also loads, and the
    unknown mode makes the extraction raise. *)
Theorem load_accepts_invalid_configuration :
  __init__ (Some duplicate_config) None
  = Ok {| _extracted_feature_criteria := [("links", plain "//link")];
          _extracted_content_criteria := [];
          _meta_features := default_meta_features;
          feature_counts := [] |}
  /\ (exists self,
        __init__ (Some bad_mode_config) None = Ok self
        /\ @extract_features_from_tree Simple.lxml
             (_extracted_feature_criteria self) (_extracted_content_criteria self)
             example_tree
           = Raise (TypeError "not enough arguments for format string")).
Proof. split; [reflexivity|]. eexists. split; reflexivity. Qed.

(** ** Feature names and the shared default list *)

Lemma heap_get_set (h : heap) (l : loc) (v : list string) :
  (l < length h)%nat -> heap_get (heap_set h l v) l = v.
Proof.
  intros Hl. unfold heap_get, heap_set.
  by rewrite list_lookup_insert_eq.
Qed.

Lemma heap_get_set_ne (h : heap) (l l' : loc) (v : list string) :
  l <> l' -> heap_get (heap_set h l v) l' = heap_get h l'.
Proof.
  intros Hl. unfold heap_get, heap_set.
  by rewrite list_lookup_insert_ne.
Qed.

Lemma add_meta_feature_get (self : CountingFeatureExtractor) (name : string) (h : heap) :
  (_meta_features self < length h)%nat ->
  heap_get (add_meta_feature self name h) (_meta_features self)
  = if list_mem name (heap_get h (_meta_features self))
    then heap_get h (_meta_features self)
    else heap_get h (_meta_features self) ++ [name].
Proof.
  intros Hl. unfold add_meta_feature.
  destruct (list_mem name _); [done|]. by apply heap_get_set.
Qed.

Lemma load_extracted_features_meta (self self' : CountingFeatureExtractor) (config : rubric) :
  load_extracted_features self config = Ok self' ->
  _meta_features self' = _meta_features self.
Proof.
  unfold load_extracted_features. intros ([fc cc] & _ & [= <-])%bind_Ok. done.
Qed.

Lemma init_meta_features (config_file : option rubric) (meta_features : option loc)
    (self : CountingFeatureExtractor) :
  __init__ config_file meta_features = Ok self ->
  _meta_features self = default default_meta_features meta_features.
Proof.
  unfold __init__. destruct config_file as [config|].
  - intros Hload%load_extracted_features_meta. done.
  - by intros [= <-].
Qed.

(** C8, as amended: [all_feature_names] lists the meta-feature names in
    the order of their list, then the names of the count criteria, then the
    names of the content criteria; the names of a partition being distinct,
    the result is free of duplicates exactly when the meta-feature list is
    and no name belongs to two of the three groups. *)
Theorem all_feature_names_order (self : CountingFeatureExtractor) (h : heap) :
  NoDup (dict_keys (_extracted_feature_criteria self)) ->
  NoDup (dict_keys (_extracted_content_criteria self)) ->
  all_feature_names self h
  = heap_get h (_meta_features self)
    ++ dict_keys (_extracted_feature_criteria self)
    ++ dict_keys (_extracted_content_criteria self)
  /\ (NoDup (all_feature_names self h)
      <-> NoDup (heap_get h (_meta_features self))
          /\ (forall name : string, name ∈ heap_get h (_meta_features self) ->
                (name ∉ dict_keys (_extracted_feature_criteria self))
                /\ (name ∉ dict_keys (_extracted_content_criteria self)))
          /\ (forall name, name ∈ dict_keys (_extracted_feature_criteria self) ->
                name ∉ dict_keys (_extracted_content_criteria self))).
Proof.
  intros Hfc Hcc. unfold all_feature_names. simpl.
  rewrite <- app_assoc. split; [done|].
  rewrite !NoDup_app. setoid_rewrite elem_of_app. split.
  - intros (Hm & Hdisj & _ & Hdisj' & _). split_and!; [done| |done].
    intros name Hname. specialize (Hdisj name Hname). tauto.
  - intros (Hm & Hdisj & Hdisj'). split_and!; try done.
    intros name Hname. specialize (Hdisj name Hname). tauto.
Qed.

Lemma all_feature_names_order_witness :
  all_feature_names example_extractor [["requested_url"; "response_url"]]
  = heap_get [["requested_url"; "response_url"]] (_meta_features example_extractor)
    ++ dict_keys (_extracted_feature_criteria example_extractor)
    ++ dict_keys (_extracted_content_criteria example_extractor)
  /\ (NoDup (all_feature_names example_extractor [["requested_url"; "response_url"]])
      <-> NoDup (heap_get [["requested_url"; "response_url"]]
                   (_meta_features example_extractor))
          /\ (forall name : string,
                name ∈ heap_get [["requested_url"; "response_url"]]
                         (_meta_features example_extractor) ->
                (name ∉ dict_keys (_extracted_feature_criteria example_extractor))
                /\ (name ∉ dict_keys (_extracted_content_criteria example_extractor)))
          /\ (forall name,
                name ∈ dict_keys (_extracted_feature_criteria example_extractor) ->
                name ∉ dict_keys (_extracted_content_criteria example_extractor))).
Proof.
  apply (all_feature_names_order example_extractor [["requested_url"; "response_url"]]);
    simpl; apply NoDup_singleton.
Defined.

(** C8, the claim as stated fails: an instance whose meta features are
    [requested_url] and [response_url], built from a configuration with a
    count criterion [requested_url], lists that name twice. *)
Lemma all_feature_names_duplicates :
  exists self,
    __init__ (Some url_config) (Some (fst url_heap)) = Ok self
    /\ all_feature_names self (snd url_heap)
       = ["requested_url"; "response_url"; "requested_url"; "title_text"]
    /\ ~ NoDup (all_feature_names self (snd url_heap)).
Proof.
  eexists. split; [reflexivity|]. split; [reflexivity|].
  simpl. intros Hnd. apply NoDup_cons in Hnd as [Hnotin _].
  apply Hnotin. apply list_elem_of_further, list_elem_of_here.
Qed.

(** C10: two instances built without a [meta_features] argument refer to
    one list; after [add_meta_feature] on the first, the name is among the
    feature names of the second. *)
Theorem default_meta_features_shared (config_a config_b : option rubric)
    (a b : CountingFeatureExtractor) (h : heap) (name : string) :
  (default_meta_features < length h)%nat ->
  __init__ config_a None = Ok a ->
  __init__ config_b None = Ok b ->
  _meta_features a = _meta_features b
  /\ name ∈ all_feature_names b (add_meta_feature a name h).
Proof.
  intros Hh Ha%init_meta_features Hb%init_meta_features. simpl in Ha, Hb.
  split; [congruence|].
  unfold all_feature_names. simpl. apply elem_of_app. left. apply elem_of_app. left.
  rewrite Hb. rewrite <- Ha. rewrite add_meta_feature_get; [|by rewrite Ha].
  destruct (list_mem name _) eqn:Hmem.
  - apply list_mem_true. exact Hmem.
  - apply elem_of_app. right. by apply list_elem_of_singleton.
Qed.

Lemma default_meta_features_shared_witness :
  _meta_features example_extractor = _meta_features empty_extractor
  /\ "requested_url"
     ∈ all_feature_names empty_extractor
         (add_meta_feature example_extractor "requested_url" module_heap).
Proof.
  apply (default_meta_features_shared (Some example_config) None
           example_extractor empty_extractor module_heap "requested_url");
    [unfold default_meta_features, module_heap; simpl; lia | reflexivity | reflexivity].
Defined.

(** Before the call the second instance does not list the name, and an
    instance built with a list of its own is not affected. *)
Example default_meta_features_shared_run :
  all_feature_names empty_extractor module_heap = []
  /\ all_feature_names empty_extractor
       (add_meta_feature example_extractor "requested_url" module_heap)
     = ["requested_url"]
  /\ (exists own,
        __init__ None (Some (fst url_heap)) = Ok own
        /\ all_feature_names own
             (add_meta_feature example_extractor "label" (snd url_heap))
           = ["requested_url"; "response_url"]).
Proof. split; [reflexivity|]. split; [reflexivity|]. eexists. split; reflexivity. Qed.

(** ** Accumulation *)

Lemma set_meta_feature_writes (meta_features : row) (name : string) :
  name ∈ dict_keys meta_features ->
  exists v, writes (set_meta_feature meta_features) name v.
Proof.
  intros [v Hv]%dict_get_is_Some. exists v. intros data.
  unfold set_meta_feature, dict_item. by rewrite Hv.
Qed.

Lemma _append_features_spec (self : CountingFeatureExtractor)
    (extracted_features meta_features : row) :
  exists r,
    _append_features self extracted_features meta_features
    = Ok (set_feature_counts self (feature_counts self ++ [r]))
    /\ (forall name : string,
          name ∈ dict_keys r
          <-> name ∈ dict_keys extracted_features \/ name ∈ dict_keys meta_features)
    /\ (NoDup (dict_keys extracted_features) -> NoDup (dict_keys r)).
Proof.
  destruct (for_each_writes (set_meta_feature meta_features) (dict_keys meta_features)
              (set_meta_feature_writes meta_features) extracted_features)
    as (r & Hrun & Hkeys & _ & _ & Hnd).
  exists r. unfold _append_features. rewrite Hrun. done.
Qed.

Lemma _append_features_Ok (self self' : CountingFeatureExtractor)
    (extracted_features meta_features : row) :
  _append_features self extracted_features meta_features = Ok self' ->
  exists r, self' = set_feature_counts self (feature_counts self ++ [r]).
Proof.
  unfold _append_features. intros (r & _ & [= <-])%bind_Ok. by exists r.
Qed.

Section accumulation_facts.
Context `{Lxml}.

Lemma accumulate_spec (self : CountingFeatureExtractor) (call : document * row) :
  all_values evaluable (_extracted_feature_criteria self) = true ->
  all_values has_xpath (_extracted_content_criteria self) = true ->
  is_ok (etree_parse (document_source (fst call))) = true ->
  exists r,
    accumulate self call = Ok (set_feature_counts self (feature_counts self ++ [r]))
    /\ row_keys_exact self r call.
Proof.
  intros Hfc Hcc Hparse.
  destruct (etree_parse (document_source (fst call))) as [html_tree|] eqn:Htree; [|done].
  destruct (extract_features_from_tree_spec _ _ html_tree Hfc Hcc)
    as (data & Hrun & Hkeys & Hnd & _).
  destruct (_append_features_spec self data (snd call)) as (r & Happend & Hrkeys & Hrnd).
  exists r. split.
  - unfold accumulate, accumulate_features_from_string, accumulate_features_from_bytes,
      accumulate_features_from_file, extract_features_from_string,
      extract_features_from_bytes, extract_features_from_file.
    destruct (fst call); simpl in Htree; rewrite Htree; simpl;
      rewrite Hrun; simpl; rewrite Happend; done.
  - split; [by apply Hrnd|]. intros name. rewrite Hrkeys, Hkeys. done.
Qed.

Lemma accumulate_all_spec (calls : list (document * row)) :
  forall self : CountingFeatureExtractor,
    all_values evaluable (_extracted_feature_criteria self) = true ->
    all_values has_xpath (_extracted_content_criteria self) = true ->
    Forall (fun call => is_ok (etree_parse (document_source (fst call))) = true) calls ->
    exists rows,
      accumulate_all self calls
      = Ok (set_feature_counts self (feature_counts self ++ rows))
      /\ Forall2 (row_keys_exact self) rows calls.
Proof.
  unfold accumulate_all.
  induction calls as [|call calls IH]; intros self Hfc Hcc Hparse.
  - exists []. simpl. rewrite app_nil_r. split; [by destruct self|constructor].
  - apply Forall_cons in Hparse as [Hcall Hcalls].
    destruct (accumulate_spec self call Hfc Hcc Hcall) as (r & Hrun & Hr).
    destruct (IH (set_feature_counts self (feature_counts self ++ [r])) Hfc Hcc Hcalls)
      as (rows & Hruns & Hrows).
    exists (r :: rows). simpl. rewrite Hrun. simpl. rewrite Hruns. split.
    + unfold set_feature_counts. simpl. by rewrite <- app_assoc.
    + constructor; done.
Qed.
End accumulation_facts.

Lemma row_keys_exact_length (self : CountingFeatureExtractor) (r : row)
    (call : document * row) :
  row_keys_exact self r call ->
  NoDup (dict_keys (_extracted_feature_criteria self)
         ++ dict_keys (_extracted_content_criteria self)
         ++ dict_keys (snd call)) ->
  length r
  = (length (_extracted_feature_criteria self)
     + length (_extracted_content_criteria self)
     + length (snd call))%nat.
Proof.
  intros [Hnd Hkeys] Hall.
  assert (dict_keys r ≡ₚ dict_keys (_extracted_feature_criteria self)
                          ++ dict_keys (_extracted_content_criteria self)
                          ++ dict_keys (snd call)) as Hperm.
  { apply NoDup_Permutation; [done..|].
    intros name. rewrite Hkeys, !elem_of_app. tauto. }
  apply Permutation_length in Hperm.
  unfold dict_keys in Hperm. rewrite !length_app, !length_map in Hperm. lia.
Qed.

(** C7: on an instance whose criteria can be evaluated, a sequence of K
    calls whose documents parse returns, appends K rows to [feature_counts]
    and leaves the rest of the instance as it is; the keys of each new row
    are the names of the count and content criteria and of the meta
    features of its call, each once, and there are M + (number of meta
    features of the call) of them when these names are all different. *)
Theorem accumulate_rows `{Lxml} (self : CountingFeatureExtractor)
    (calls : list (document * row)) :
  all_values evaluable (_extracted_feature_criteria self) = true ->
  all_values has_xpath (_extracted_content_criteria self) = true ->
  Forall (fun call => is_ok (etree_parse (document_source (fst call))) = true) calls ->
  exists rows,
    accumulate_all self calls = Ok (set_feature_counts self (feature_counts self ++ rows))
    /\ length rows = length calls
    /\ Forall2 (fun r call =>
                  row_keys_exact self r call
                  /\ (NoDup (dict_keys (_extracted_feature_criteria self)
                             ++ dict_keys (_extracted_content_criteria self)
                             ++ dict_keys (snd call)) ->
                      length r
                      = (length (_extracted_feature_criteria self)
                         + length (_extracted_content_criteria self)
                         + length (snd call))%nat))
         rows calls.
Proof.
  intros Hfc Hcc Hparse.
  destruct (accumulate_all_spec calls self Hfc Hcc Hparse) as (rows & Hrun & Hrows).
  exists rows. split_and!; [done|by eapply Forall2_length|].
  eapply Forall2_impl; [exact Hrows|].
  intros r call Hr. split; [done|]. by apply row_keys_exact_length.
Qed.

Lemma accumulate_rows_witness :
  exists rows,
    @accumulate_all Simple.lxml example_extractor example_calls
    = Ok (set_feature_counts example_extractor (feature_counts example_extractor ++ rows))
    /\ length rows = length example_calls
    /\ Forall2 (fun r call =>
                  row_keys_exact example_extractor r call
                  /\ (NoDup (dict_keys (_extracted_feature_criteria example_extractor)
                             ++ dict_keys (_extracted_content_criteria example_extractor)
                             ++ dict_keys (snd call)) ->
                      length r
                      = (length (_extracted_feature_criteria example_extractor)
                         + length (_extracted_content_criteria example_extractor)
                         + length (snd call))%nat))
         rows example_calls.
Proof.
  apply (@accumulate_rows Simple.lxml example_extractor example_calls);
    [reflexivity | reflexivity | repeat constructor].
Defined.

Example example_calls_run :
  @accumulate_all Simple.lxml example_extractor example_calls
  = Ok (set_feature_counts example_extractor
          [ [ ("num_forms", PyInt 2); ("title_text", PyStr "Hello");
              ("requested_url", PyStr "http://a.example/");
              ("response_url", PyStr "http://a.example/home") ];
            [ ("num_forms", PyInt 0); ("title_text", PyStr "Hi");
              ("requested_url", PyStr "http://b.example/") ] ]).
Proof. reflexivity. Qed.

(** ** The batch pipeline *)

Lemma accumulate_features_from_string_spec `{Lxml} (self : CountingFeatureExtractor)
    (text : string) (meta_features : row) :
  all_values evaluable (_extracted_feature_criteria self) = true ->
  all_values has_xpath (_extracted_content_criteria self) = true ->
  is_ok (etree_parse (StringIO text)) = true ->
  exists r,
    accumulate_features_from_string self text meta_features
    = Ok (set_feature_counts self (feature_counts self ++ [r]), feature_counts self ++ [r])
    /\ row_keys_exact self r (FromString text, meta_features).
Proof.
  intros Hfc Hcc Hparse.
  destruct (accumulate_spec self (FromString text, meta_features) Hfc Hcc Hparse)
    as (r & Hrun & Hr).
  exists r. split; [|done].
  unfold accumulate in Hrun. simpl in Hrun.
  apply bind_Ok in Hrun as ([self' rows] & Hacc & Heq).
  simpl in Heq. injection Heq as Heq. subst self'.
  rewrite Hacc. f_equal. f_equal.
  unfold accumulate_features_from_string in Hacc.
  apply bind_Ok in Hacc as (extracted & _ & (self'' & _ & [= -> <-])%bind_Ok).
  done.
Qed.

(** What a processed line leaves behind, whatever made it succeed. *)
Lemma process_line_Ok `{Lxml} `{Codecs} (extractor extractor' : CountingFeatureExtractor)
    (line label : string) (rows : list row) :
  process_line extractor line = Ok (extractor', (rows, label)) ->
  exists r,
    extractor' = set_feature_counts extractor (feature_counts extractor ++ [r])
    /\ rows = feature_counts extractor ++ [r].
Proof.
  unfold process_line, extract_record, accumulate_features_from_string.
  intros (x & _ & (text & _ & ([self rows'] & Hacc & [= <- <- _])%bind_Ok)%bind_Ok)%bind_Ok.
  apply bind_Ok in Hacc as (extracted & _ & (self' & Happend & [= <- <-])%bind_Ok).
  apply _append_features_Ok in Happend as [r ->]. by exists r.
Qed.

(** C9, as amended: a line [payload,label] whose payload decodes to a
    document that parses is handed to [accumulate_features_from_string]:
    the row extracted from the document is appended to [feature_counts] of
    the instance, and the value paired with the label is that whole list. *)
Theorem process_line_accumulates `{Lxml} `{Codecs} (extractor : CountingFeatureExtractor)
    (line payload label : string) (fields : list string) (decoded : list byte)
    (text : string) :
  split_comma line = payload :: label :: fields ->
  b64decode payload = Ok decoded ->
  utf8_decode decoded = Ok text ->
  is_ok (etree_parse (StringIO text)) = true ->
  all_values evaluable (_extracted_feature_criteria extractor) = true ->
  all_values has_xpath (_extracted_content_criteria extractor) = true ->
  exists r,
    process_line extractor line
    = Ok (set_feature_counts extractor (feature_counts extractor ++ [r]),
          (feature_counts extractor ++ [r], label))
    /\ row_keys_exact extractor r (FromString text, []).
Proof.
  intros Hsplit Hb64 Hutf8 Hparse Hfc Hcc.
  destruct (accumulate_features_from_string_spec extractor text [] Hfc Hcc Hparse)
    as (r & Hrun & Hr).
  exists r. split; [|done].
  unfold process_line, decode_record, extract_record.
  rewrite Hsplit. simpl. rewrite Hb64. simpl. rewrite Hutf8. simpl. by rewrite Hrun.
Qed.

Lemma process_line_accumulates_witness :
  exists r,
    @process_line Simple.lxml Simple.codecs example_extractor example_line
    = Ok (set_feature_counts example_extractor (feature_counts example_extractor ++ [r]),
          (feature_counts example_extractor ++ [r], "site-1"))
    /\ row_keys_exact example_extractor r (FromString "<title>Hi</title>", []).
Proof.
  apply (@process_line_accumulates Simple.lxml Simple.codecs example_extractor
           example_line "PHRpdGxlPkhpPC90aXRsZT4=" "site-1" []
           (String.list_byte_of_string "<title>Hi</title>") "<title>Hi</title>");
    reflexivity.
Defined.

(** C9, the claim as stated fails: processing the example line with the
    example instance, whose row list is empty, leaves one row in the list. *)
Lemma process_line_appends_row :
  exists extractor' out,
    @process_line Simple.lxml Simple.codecs example_extractor example_line
    = Ok (extractor', out)
    /\ feature_counts example_extractor = []
    /\ feature_counts extractor' = [[("num_forms", PyInt 0); ("title_text", PyStr "Hi")]]
    /\ feature_counts extractor' <> feature_counts example_extractor.
Proof. do 2 eexists. repeat split. done. Qed.

(** * Further properties of the code *)

(** ** Validation and registration *)

(** The four tests of [_validate_new_feature], taken together. *)
Lemma validate_new_feature_cases (self : CountingFeatureExtractor) (name : string)
    (xpath text_re_mode text_re_pattern : option string) :
  (_validate_new_feature self name xpath text_re_mode text_re_pattern = Ok ()
   <-> (name ∉ dict_keys (_extracted_feature_criteria self))
       /\ _extracted_content_criteria self = []
       /\ xpath <> None
       /\ ((text_re_mode = None /\ text_re_pattern = None)
           \/ ((text_re_mode = Some "match" \/ text_re_mode = Some "search")
               /\ text_re_pattern <> None)))
  /\ (_validate_new_feature self name xpath text_re_mode text_re_pattern = Ok ()
      \/ exists msg,
           _validate_new_feature self name xpath text_re_mode text_re_pattern
           = Raise (ValueError msg)).
Proof.
  unfold _validate_new_feature.
  destruct (dict_mem name (_extracted_feature_criteria self)) eqn:Hmem; simpl.
  { apply dict_mem_keys in Hmem. split; [|eauto]. split; [done|]. tauto. }
  apply dict_mem_false_keys in Hmem.
  destruct (_extracted_content_criteria self) as [|kv cc]; simpl.
  2:{ split; [|eauto]. split; [done|]. intros (_ & ? & _). done. }
  destruct xpath as [expr|]; simpl.
  2:{ split; [|eauto]. split; [done|]. intros (_ & _ & ? & _). done. }
  destruct text_re_mode as [mode|], text_re_pattern as [pattern|]; simpl.
  - unfold list_mem. simpl.
    destruct (String.eqb mode "match") eqn:Em; simpl.
    { apply String.eqb_eq in Em. subst. split; [|eauto].
      split; [|done]. intros _. split_and!; try done. right. split; [by left|done]. }
    destruct (String.eqb mode "search") eqn:Es; simpl.
    { apply String.eqb_eq in Es. subst. split; [|eauto].
      split; [|done]. intros _. split_and!; try done. right. split; [by right|done]. }
    apply String.eqb_neq in Em, Es. split; [|eauto]. split; [done|].
    intros (_ & _ & _ & [[? _] | [[? | ?] _]]); congruence.
  - split; [|eauto]. split; [done|]. intros (_ & _ & _ & [[? _] | [_ ?]]); done.
  - split; [|eauto]. split; [done|]. intros (_ & _ & _ & [[_ ?] | [[? | ?] _]]); done.
  - split; [|eauto]. split; [|done]. intros _. split_and!; try done. by left.
Qed.

(** X1: [_validate_new_feature] accepts exactly a name that is not a count
    criterion, on an instance without content criteria, with an expression
    and with either no mode and no pattern or a pattern and one of the modes
    [match] and [search]; in every other case it raises a [ValueError]. *)
Theorem validate_new_feature_accepts (self : CountingFeatureExtractor) (name : string)
    (xpath text_re_mode text_re_pattern : option string) :
  (_validate_new_feature self name xpath text_re_mode text_re_pattern = Ok ()
   <-> (name ∉ dict_keys (_extracted_feature_criteria self))
       /\ _extracted_content_criteria self = []
       /\ xpath <> None
       /\ ((text_re_mode = None /\ text_re_pattern = None)
           \/ ((text_re_mode = Some "match" \/ text_re_mode = Some "search")
               /\ text_re_pattern <> None)))
  /\ (_validate_new_feature self name xpath text_re_mode text_re_pattern = Ok ()
      \/ exists msg,
           _validate_new_feature self name xpath text_re_mode text_re_pattern
           = Raise (ValueError msg)).
Proof. apply validate_new_feature_cases. Qed.


Lemma validated_feature_evaluable (self : CountingFeatureExtractor) (name : string)
    (xpath text_re_mode text_re_pattern : option string) :
  _validate_new_feature self name xpath text_re_mode text_re_pattern = Ok () ->
  evaluable {| f_xpath := xpath; f_text_re_mode := text_re_mode;
               f_text_re_pattern := text_re_pattern |} = true.
Proof.
  intros (_ & _ & Hx & Hfilter)%validate_new_feature_cases.
  unfold evaluable, has_xpath. simpl.
  destruct xpath; [simpl|done].
  destruct Hfilter as [[-> ->] | [[-> | ->] Hp]]; [done| |];
    by destruct text_re_pattern.
Qed.

(** What a successful [add_extracted_feature] leaves. *)
Lemma add_extracted_feature_inv (self self' : CountingFeatureExtractor) (name : string)
    (xpath text_re_mode text_re_pattern : option string) :
  add_extracted_feature self name xpath text_re_mode text_re_pattern = Ok self' ->
  dict_keys (_extracted_feature_criteria self')
  = dict_keys (_extracted_feature_criteria self) ++ [name]
  /\ dict_get (_extracted_feature_criteria self') name
     = Some {| f_xpath := xpath; f_text_re_mode := text_re_mode;
               f_text_re_pattern := text_re_pattern |}
  /\ (forall k, k <> name ->
        dict_get (_extracted_feature_criteria self') k
        = dict_get (_extracted_feature_criteria self) k)
  /\ _extracted_content_criteria self' = _extracted_content_criteria self
  /\ _meta_features self' = _meta_features self
  /\ feature_counts self' = feature_counts self
  /\ (all_values evaluable (_extracted_feature_criteria self) = true ->
      all_values evaluable (_extracted_feature_criteria self') = true).
Proof.
  unfold add_extracted_feature. intros (u & Hvalid & [= <-])%bind_Ok. destruct u.
  pose proof (validated_feature_evaluable _ _ _ _ _ Hvalid) as Hev.
  apply validate_new_feature_cases in Hvalid as (Hfresh & _).
  unfold put_feature_criterion. simpl. split_and!; try done.
  - rewrite dict_keys_set.
    apply dict_mem_false_keys in Hfresh. by rewrite Hfresh.
  - apply dict_get_set_eq.
  - intros k Hk. apply dict_get_set_ne. congruence.
  - intros Hall. by apply all_values_set.
Qed.

(** X2: when [add_extracted_feature] succeeds, the new name is the last key
    of the count partition and holds the criterion that was given, the
    criteria that were there are unchanged, the rest of the instance is as
    before, and if the extraction could evaluate the count partition before
    it still can. *)
Theorem add_extracted_feature_Ok (self self' : CountingFeatureExtractor) (name : string)
    (xpath text_re_mode text_re_pattern : option string) :
  add_extracted_feature self name xpath text_re_mode text_re_pattern = Ok self' ->
  dict_keys (_extracted_feature_criteria self')
  = dict_keys (_extracted_feature_criteria self) ++ [name]
  /\ dict_get (_extracted_feature_criteria self') name
     = Some {| f_xpath := xpath; f_text_re_mode := text_re_mode;
               f_text_re_pattern := text_re_pattern |}
  /\ (forall k, k <> name ->
        dict_get (_extracted_feature_criteria self') k
        = dict_get (_extracted_feature_criteria self) k)
  /\ _extracted_content_criteria self' = _extracted_content_criteria self
  /\ _meta_features self' = _meta_features self
  /\ feature_counts self' = feature_counts self
  /\ (all_values evaluable (_extracted_feature_criteria self) = true ->
      all_values evaluable (_extracted_feature_criteria self') = true).
Proof. apply add_extracted_feature_inv. Qed.

Lemma add_extracted_feature_Ok_witness :
  dict_keys (_extracted_feature_criteria registered_extractor)
  = dict_keys (_extracted_feature_criteria empty_extractor) ++ ["num_forms"]
  /\ dict_get (_extracted_feature_criteria registered_extractor) "num_forms"
     = Some (plain "//form")
  /\ (forall k, k <> "num_forms" ->
        dict_get (_extracted_feature_criteria registered_extractor) k
        = dict_get (_extracted_feature_criteria empty_extractor) k)
  /\ _extracted_content_criteria registered_extractor
     = _extracted_content_criteria empty_extractor
  /\ _meta_features registered_extractor = _meta_features empty_extractor
  /\ feature_counts registered_extractor = feature_counts empty_extractor
  /\ (all_values evaluable (_extracted_feature_criteria empty_extractor) = true ->
      all_values evaluable (_extracted_feature_criteria registered_extractor) = true).
Proof.
  apply (add_extracted_feature_Ok empty_extractor registered_extractor
           "num_forms" (Some "//form") None None).
  reflexivity.
Defined.

(** ** When the extraction returns *)





Section extraction_returns.
Context `{Lxml}.




End extraction_returns.



(** ** Registration followed by extraction *)




(** ** Meta features of a row *)

(** X5: in the row that [_append_features] appends, a name of the call's
    meta features holds the meta value, also when the extraction had put a
    criterion's value under that name; every other name holds what the
    extraction put there. *)
Theorem append_features_values (self : CountingFeatureExtractor)
    (extracted_features meta_features : row) :
  exists r,
    _append_features self extracted_features meta_features
    = Ok (set_feature_counts self (feature_counts self ++ [r]))
    /\ (forall name v, dict_get meta_features name = Some v -> dict_get r name = Some v)
    /\ (forall name, dict_get meta_features name = None ->
          dict_get r name = dict_get extracted_features name).
Proof.
  destruct (for_each_writes (set_meta_feature meta_features) (dict_keys meta_features)
              (set_meta_feature_writes meta_features) extracted_features)
    as (r & Hrun & _ & Hget & Hframe & _).
  exists r. unfold _append_features. rewrite Hrun. split_and!; [done| |].
  - intros name v Hv. apply Hget.
    + apply dict_get_is_Some. by rewrite Hv.
    + intros data. unfold set_meta_feature, dict_item. by rewrite Hv.
  - intros name Hnone. apply Hframe. intros [v Hv]%dict_get_is_Some. congruence.
Qed.

(** ** Loading *)

Lemma load_count_entry_complete (feature_criteria : criteria) (e : config_entry) :
  match load_count_entry feature_criteria e with
  | Ok fc' =>
      complete_entry e = true
      /\ exists name, e_name e = Some name
                      /\ fc' = dict_set feature_criteria name (counted_feature e)
  | Raise err => complete_entry e = false /\ exists key, err = KeyError key
  end.
Proof.
  unfold load_count_entry, entry_name, complete_entry, put_feature_criterion,
    counted_feature.
  destruct (e_name e) as [name|]; simpl; [|eauto].
  destruct (e_xpath e); simpl; eauto.
Qed.

Lemma load_content_entry_complete (extracted_content : criteria) (e : config_entry) :
  match load_content_entry extracted_content e with
  | Ok cc' =>
      complete_entry e = true
      /\ exists name, e_name e = Some name
                      /\ cc' = dict_set extracted_content name (extracted_feature e)
  | Raise err => complete_entry e = false /\ exists key, err = KeyError key
  end.
Proof.
  unfold load_content_entry, entry_name, complete_entry, put_feature_criterion,
    extracted_feature.
  destruct (e_name e) as [name|]; simpl; [|eauto].
  destruct (e_xpath e); simpl; eauto.
Qed.

(** What a loop of the loader does with a list of entries: it returns when
    all of them are complete, the last entry of a name decides what the name
    holds, and a property of the stored criteria that held before and holds
    for the entries holds after. *)
Lemma load_entries_spec (load_entry : criteria -> config_entry -> result criteria)
    (stored : config_entry -> feature) (entries : list config_entry) :
  (forall c e,
     match load_entry c e with
     | Ok c' => complete_entry e = true
                /\ exists name, e_name e = Some name /\ c' = dict_set c name (stored e)
     | Raise err => complete_entry e = false /\ exists key, err = KeyError key
     end) ->
  forall c,
    match for_each load_entry entries c with
    | Ok c' =>
        forallb complete_entry entries = true
        /\ (forall name,
              dict_get c' name
              = match last_entry name entries with
                | Some e => Some (stored e)
                | None => dict_get c name
                end)
        /\ (forall p : feature -> bool,
              all_values p c = true ->
              forallb (fun e => p (stored e)) entries = true ->
              all_values p c' = true)
    | Raise err => forallb complete_entry entries = false /\ exists key, err = KeyError key
    end.
Proof.
  intros Hentry. induction entries as [|e entries IH]; intros c; simpl; [done|].
  specialize (Hentry c e).
  destruct (load_entry c e) as [c1|err]; simpl.
  - destruct Hentry as (Hcomplete & name & Hname & ->). rewrite Hcomplete. simpl.
    specialize (IH (dict_set c name (stored e))).
    destruct (for_each load_entry entries _) as [c'|err]; [|done].
    destruct IH as (Hall & Hget & Hinv). split_and!; [done| |].
    + intros k. rewrite Hget. destruct (last_entry k entries); [done|].
      rewrite Hname. destruct (String.eqb name k) eqn:E.
      * apply String.eqb_eq in E. subst. apply dict_get_set_eq.
      * apply String.eqb_neq in E. by apply dict_get_set_ne.
    + intros p Hc [He Hes]%andb_prop. apply Hinv; [|done]. by apply all_values_set.
  - destruct Hentry as [-> Hkey]. done.
Qed.

(** X6: [load_feature_criteria] returns exactly when the configuration has
    both lists and every entry of both has a name and the key [xpath]; in
    every other case it raises a [KeyError]. *)
Theorem load_feature_criteria_returns (config_file : rubric)
    (feature_criteria extracted_content : criteria) :
  (is_ok (load_feature_criteria config_file feature_criteria extracted_content) = true
   <-> exists count_entries content_entries,
         features_to_count config_file = Some count_entries
         /\ text_to_extract config_file = Some content_entries
         /\ forallb complete_entry count_entries = true
         /\ forallb complete_entry content_entries = true)
  /\ (is_ok (load_feature_criteria config_file feature_criteria extracted_content) = true
      \/ exists key,
           load_feature_criteria config_file feature_criteria extracted_content
           = Raise (KeyError key)).
Proof.
  unfold load_feature_criteria, rubric_item.
  destruct (features_to_count config_file) as [count_entries|]; simpl.
  2:{ split; [|eauto]. split; [done|]. by intros (? & ? & ? & _). }
  pose proof (load_entries_spec _ _ count_entries load_count_entry_complete
                feature_criteria) as Hcount.
  destruct (for_each load_count_entry count_entries feature_criteria) as [fc|err]; simpl.
  2:{ destruct Hcount as (Hfalse & key & ->). split; [|eauto]. split; [done|].
      intros (? & ? & [= <-] & _ & ? & _). congruence. }
  destruct Hcount as (Hcounts & _).
  destruct (text_to_extract config_file) as [content_entries|]; simpl.
  2:{ split; [|eauto]. split; [done|]. by intros (? & ? & _ & ? & _). }
  pose proof (load_entries_spec _ _ content_entries load_content_entry_complete
                extracted_content) as Hcontent.
  destruct (for_each load_content_entry content_entries extracted_content)
    as [cc|err]; simpl.
  - destruct Hcontent as (Hcontents & _). split; [|by left]. split; [|done].
    intros _. by exists count_entries, content_entries.
  - destruct Hcontent as (Hfalse & key & ->). split; [|eauto]. split; [done|].
    intros (? & ? & _ & [= <-] & _ & ?). congruence.
Qed.

(** X7: after a successful load, a name holds in each partition the
    criterion of the last entry of that name in the partition's list, and
    what it held before when the list has no entry of that name. *)
Theorem load_last_entry_wins (config_file : rubric)
    (feature_criteria extracted_content feature_criteria' extracted_content' : criteria)
    (count_entries content_entries : list config_entry) :
  features_to_count config_file = Some count_entries ->
  text_to_extract config_file = Some content_entries ->
  load_feature_criteria config_file feature_criteria extracted_content
  = Ok (feature_criteria', extracted_content') ->
  forall name,
    dict_get feature_criteria' name
    = match last_entry name count_entries with
      | Some e => Some (counted_feature e)
      | None => dict_get feature_criteria name
      end
    /\ dict_get extracted_content' name
       = match last_entry name content_entries with
         | Some e => Some (extracted_feature e)
         | None => dict_get extracted_content name
         end.
Proof.
  intros Hcounts Hcontents. unfold load_feature_criteria, rubric_item.
  rewrite Hcounts, Hcontents. simpl.
  pose proof (load_entries_spec _ _ count_entries load_count_entry_complete
                feature_criteria) as Hcount.
  destruct (for_each load_count_entry count_entries feature_criteria) as [fc|err];
    [simpl|done].
  pose proof (load_entries_spec _ _ content_entries load_content_entry_complete
                extracted_content) as Hcontent.
  destruct (for_each load_content_entry content_entries extracted_content)
    as [cc|err]; [simpl|done].
  intros [= <- <-] name. destruct Hcount as (_ & Hget & _), Hcontent as (_ & Hget' & _).
  done.
Qed.

Lemma load_last_entry_wins_witness :
  dict_get [("links", plain "//link")] "links"
  = match last_entry "links" [entry "links" "//a"; entry "links" "//link"] with
    | Some e => Some (counted_feature e)
    | None => dict_get (@nil (string * feature)) "links"
    end
  /\ dict_get (@nil (string * feature)) "links"
     = match last_entry "links" [] with
       | Some e => Some (extracted_feature e)
       | None => dict_get (@nil (string * feature)) "links"
       end.
Proof.
  apply (load_last_entry_wins duplicate_config [] [] [("links", plain "//link")] []
           [entry "links" "//a"; entry "links" "//link"] []); reflexivity.
Defined.




(** ** Meta features *)

(** X9: [add_meta_feature] leaves a list that holds the name; the names
    that were in the list stay where they are, a list without duplicates
    stays without duplicates, a second call with the same name changes
    nothing, and no other list of the heap is touched. *)
Theorem add_meta_feature_spec (self : CountingFeatureExtractor) (name : string) (h : heap) :
  (_meta_features self < length h)%nat ->
  name ∈ heap_get (add_meta_feature self name h) (_meta_features self)
  /\ heap_get h (_meta_features self)
     `prefix_of` heap_get (add_meta_feature self name h) (_meta_features self)
  /\ (NoDup (heap_get h (_meta_features self)) ->
      NoDup (heap_get (add_meta_feature self name h) (_meta_features self)))
  /\ add_meta_feature self name (add_meta_feature self name h)
     = add_meta_feature self name h
  /\ (forall l, l <> _meta_features self ->
        heap_get (add_meta_feature self name h) l = heap_get h l).
Proof.
  intros Hl. pose proof (add_meta_feature_get self name h Hl) as Hget.
  destruct (list_mem name (heap_get h (_meta_features self))) eqn:Hmem.
  - assert (add_meta_feature self name h = h) as Hsame
      by (unfold add_meta_feature; by rewrite Hmem).
    rewrite Hsame. apply list_mem_true in Hmem. split_and!; done.
  - rewrite Hget. pose proof Hmem as Hnotin. apply list_mem_false in Hnotin. split_and!.
    + apply elem_of_app. right. by apply list_elem_of_singleton.
    + by apply prefix_app_r.
    + intros Hnd. apply NoDup_app. split_and!; [done| |apply NoDup_singleton].
      intros x Hx ->%list_elem_of_singleton. done.
    + unfold add_meta_feature at 1. rewrite Hget.
      assert (list_mem name (heap_get h (_meta_features self) ++ [name]) = true) as ->;
        [|done].
      apply list_mem_true, elem_of_app. right. by apply list_elem_of_singleton.
    + intros l Hne. unfold add_meta_feature. rewrite Hmem.
      apply heap_get_set_ne. congruence.
Qed.

Lemma add_meta_feature_spec_witness :
  "label" ∈ heap_get (add_meta_feature empty_extractor "label" module_heap)
             (_meta_features empty_extractor)
  /\ heap_get module_heap (_meta_features empty_extractor)
     `prefix_of` heap_get (add_meta_feature empty_extractor "label" module_heap)
                   (_meta_features empty_extractor)
  /\ (NoDup (heap_get module_heap (_meta_features empty_extractor)) ->
      NoDup (heap_get (add_meta_feature empty_extractor "label" module_heap)
               (_meta_features empty_extractor)))
  /\ add_meta_feature empty_extractor "label"
       (add_meta_feature empty_extractor "label" module_heap)
     = add_meta_feature empty_extractor "label" module_heap
  /\ (forall l, l <> _meta_features empty_extractor ->
        heap_get (add_meta_feature empty_extractor "label" module_heap) l
        = heap_get module_heap l).
Proof.
  apply (add_meta_feature_spec empty_extractor "label" module_heap).
  unfold module_heap. simpl. unfold default_meta_features. lia.
Defined.

(** X10: an instance whose meta-feature list is another list object than
    that of the instance [add_meta_feature] is called on keeps its feature
    names. *)
Theorem add_meta_feature_other_instance (a b : CountingFeatureExtractor) (name : string)
    (h : heap) :
  _meta_features a <> _meta_features b ->
  all_feature_names b (add_meta_feature a name h) = all_feature_names b h.
Proof.
  intros Hne. unfold all_feature_names, add_meta_feature. simpl.
  destruct (list_mem name _); [done|]. by rewrite heap_get_set_ne.
Qed.

Lemma add_meta_feature_other_instance_witness :
  all_feature_names own_list_extractor
    (add_meta_feature example_extractor "label" (snd url_heap))
  = all_feature_names own_list_extractor (snd url_heap).
Proof.
  apply add_meta_feature_other_instance. simpl. unfold default_meta_features. lia.
Defined.

(** ** Directories *)

Lemma endswith_app (a b suffix : string) :
  endswith b suffix = true -> endswith (a +:+ b) suffix = true.
Proof.
  intros Hb. induction a as [|c a IH]; [done|].
  rewrite string_app_cons. simpl. rewrite IH. apply orb_true_r.
Qed.

Lemma endswith_path_join (a b suffix : string) :
  endswith b suffix = true -> endswith (path_join a b) suffix = true.
Proof.
  intros Hb. unfold path_join.
  destruct (String.prefix "/" b); [done|].
  destruct (String.eqb a "" || endswith a "/"); by repeat apply endswith_app.
Qed.

Lemma extract_features_from_directory_file_html (feature_criteria : criteria)
    (directory_path : string) (rows : list row) (file : string * result source) :
  extract_features_from_directory_file feature_criteria directory_path rows file
  = if endswith (fst file) ".html"
    then match snd file with
         | Ok _ =>
             Raise (TypeError
               "extract_features_from_file() missing 1 required positional argument: 'source_file'")
         | Raise e => Raise e
         end
    else Ok rows.
Proof.
  unfold extract_features_from_directory_file.
  destruct (endswith (fst file) ".html"); [|done]. by destruct (snd file).
Qed.

Lemma extract_features_from_directory_loop (feature_criteria : criteria)
    (directory_path : string) (listing : list (string * result source)) :
  forall rows rows' : list row,
    for_each (extract_features_from_directory_file feature_criteria directory_path)
      listing rows = Ok rows'
    <-> rows' = rows
        /\ forallb (fun file => negb (endswith (fst file) ".html")) listing = true.
Proof.
  induction listing as [|file listing IH]; intros rows rows'; simpl.
  - split; [by intros [= <-]|by intros [-> _]].
  - rewrite extract_features_from_directory_file_html.
    destruct (endswith (fst file) ".html"); simpl.
    + split; [by destruct (snd file)|]. by intros [_ ?].
    + apply IH.
Qed.

(** X11: [extract_features_from_directory] never returns a row: it returns
    the empty list when no name of the listing ends with [.html], and
    raises as soon as one does. *)
Theorem extract_features_from_directory_rows (feature_criteria : criteria)
    (directory_path : string) (listing : list (string * result source))
    (data_rows : list row) :
  extract_features_from_directory feature_criteria directory_path listing = Ok data_rows
  <-> data_rows = []
      /\ forallb (fun file => negb (endswith (fst file) ".html")) listing = true.
Proof. apply extract_features_from_directory_loop. Qed.

Example extract_features_from_directory_run :
  extract_features_from_directory example_counts "./data"
    [("notes.txt", Ok (FileObject "./data/notes.txt"))] = Ok []
  /\ extract_features_from_directory example_counts "./data"
       [("notes.txt", Ok (FileObject "./data/notes.txt"));
        ("index.html", Ok (FileObject "./data/index.html"))]
     = Raise (TypeError
         "extract_features_from_file() missing 1 required positional argument: 'source_file'").
Proof. split; reflexivity. Qed.

Lemma walk_entry_directory (current_directory file_name : string)
    (request_url response_url sub_request_url sub_response_url : result string)
    (entries : list fs_entry) :
  endswith file_name ".html" = false ->
  walk_entry current_directory request_url response_url
    (FsDir file_name sub_request_url sub_response_url entries)
  = directory_walker (path_join current_directory file_name)
      sub_request_url sub_response_url entries.
Proof.
  intros Hname. simpl. rewrite Hname.
  induction entries as [|e entries IH]; simpl; [done|]. by rewrite IH.
Qed.

Lemma html_entries_directory (file_name : string)
    (request_url response_url : result string) (entries : list fs_entry) :
  endswith file_name ".html" = false ->
  html_entries (FsDir file_name request_url response_url entries)
  = html_entries_of entries.
Proof.
  intros Hname. simpl. rewrite Hname.
  induction entries as [|e entries IH]; simpl; [done|]. by rewrite IH.
Qed.

Lemma urls_readable_directory (file_name : string)
    (request_url response_url : result string) (entries : list fs_entry) :
  urls_readable (FsDir file_name request_url response_url entries)
  = is_ok request_url && is_ok response_url && urls_readable_of entries.
Proof.
  simpl. destruct (is_ok request_url && is_ok response_url); [simpl|done].
  induction entries as [|e entries IH]; simpl; [done|]. by rewrite IH.
Qed.

(** What [walk_entry] returns for an entry below which every URL can be
    read, in a directory whose URLs can be read. *)
Lemma walk_entry_spec :
  forall (e : fs_entry) (current_directory : string) (requested response : string),
    urls_readable e = true ->
    exists pages,
      walk_entry current_directory (Ok requested) (Ok response) e = Ok pages
      /\ length pages = html_entries e
      /\ Forall (fun page => endswith (file_path page) ".html" = true) pages.
Proof.
  fix IH 1.
  intros [file_name | file_name sub_request_url sub_response_url entries]
    current_directory requested response Hread.
  - simpl. destruct (endswith file_name ".html") eqn:Hname.
    + eexists. split; [reflexivity|]. split; [done|].
      constructor; [|constructor]. simpl. by apply endswith_path_join.
    + by exists [].
  - destruct (endswith file_name ".html") eqn:Hname.
    + simpl. rewrite Hname. eexists. split; [reflexivity|]. split; [done|].
      constructor; [|constructor]. simpl. by apply endswith_path_join.
    + rewrite walk_entry_directory, html_entries_directory by done.
      rewrite urls_readable_directory in Hread.
      destruct sub_request_url as [sub_requested|]; [|done].
      destruct sub_response_url as [sub_response|]; [|done].
      simpl in Hread. generalize (path_join current_directory file_name).
      intros directory.
      induction entries as [|e entries IHentries]; simpl; [by exists []|].
      simpl in Hread. apply andb_prop in Hread as [He Hes].
      destruct (IH e directory sub_requested sub_response He)
        as (found & -> & Hfound & Hhtml).
      destruct (IHentries Hes) as (data & -> & Hdata & Hhtml').
      exists (found ++ data). simpl.
      rewrite length_app, Hfound, Hdata, Forall_app. done.
Qed.

(** X12: for a directory all of whose URLs can be read, at any depth,
    [directory_walker] returns one page for every entry whose name ends with
    [.html], entries of a directory with such a name apart, and the file
    path of every page ends with [.html]. *)
Theorem directory_walker_pages (current_directory requested response : string)
    (entries : list fs_entry) :
  urls_readable_of entries = true ->
  exists pages,
    directory_walker current_directory (Ok requested) (Ok response) entries = Ok pages
    /\ length pages = html_entries_of entries
    /\ Forall (fun page => endswith (file_path page) ".html" = true) pages.
Proof.
  induction entries as [|e entries IH]; simpl; [by exists []|].
  intros [He Hes]%andb_prop.
  destruct (walk_entry_spec e current_directory requested response He)
    as (found & -> & Hfound & Hhtml).
  destruct (IH Hes) as (data & -> & Hdata & Hhtml').
  exists (found ++ data). simpl.
  rewrite length_app, Hfound, Hdata, Forall_app. done.
Qed.

Lemma directory_walker_pages_witness :
  exists pages,
    directory_walker "./data" (Ok "http://a.example/") (Ok "http://a.example/home")
      example_entries = Ok pages
    /\ length pages = html_entries_of example_entries
    /\ Forall (fun page => endswith (file_path page) ".html" = true) pages.
Proof.
  apply (directory_walker_pages "./data" "http://a.example/" "http://a.example/home"
           example_entries).
  reflexivity.
Defined.

Example directory_walker_run :
  directory_walker "./data" (Ok "http://a.example/") (Ok "http://a.example/home")
    example_entries
  = Ok [ {| requested_url := "http://a.example/";
            response_url := "http://a.example/home";
            file_path := "./data/index.html" |};
         {| requested_url := "http://a.example/about";
            response_url := "http://a.example/about/";
            file_path := "./data/about/team.html" |};
         {| requested_url := "http://a.example/";
            response_url := "http://a.example/home";
            file_path := "./data/old.html" |} ].
Proof. reflexivity. Qed.

(** ** The loop of the script *)

Section main_script_facts.
Context `{Lxml}.

Lemma accumulate_features_from_file_parses (self : CountingFeatureExtractor)
    (source_file : source) (meta_features : row) :
  all_values evaluable (_extracted_feature_criteria self) = true ->
  all_values has_xpath (_extracted_content_criteria self) = true ->
  is_ok (etree_parse source_file) = true ->
  exists r,
    accumulate_features_from_file self source_file meta_features
    = Ok (set_feature_counts self (feature_counts self ++ [r]))
    /\ row_keys_exact self r (FromFile source_file, meta_features).
Proof.
  intros Hfc Hcc Hparse.
  exact (accumulate_spec self (FromFile source_file, meta_features) Hfc Hcc Hparse).
Qed.

Lemma accumulate_features_from_file_raises (self : CountingFeatureExtractor)
    (source_file : source) (meta_features : row) (e : exn) :
  etree_parse source_file = Raise e ->
  accumulate_features_from_file self source_file meta_features = Raise e.
Proof.
  intros Hparse. unfold accumulate_features_from_file, extract_features_from_file.
  by rewrite Hparse.
Qed.

Lemma accumulate_pages_spec (data : list page_data) :
  forall (extractor : CountingFeatureExtractor) (skipped : nat),
    all_values evaluable (_extracted_feature_criteria extractor) = true ->
    all_values has_xpath (_extracted_content_criteria extractor) = true ->
    forallb page_readable data = true ->
    exists rows,
      accumulate_pages extractor data skipped
      = Ok (set_feature_counts extractor (feature_counts extractor ++ rows),
            (skipped + length (List.filter (fun page => negb (page_parses page)) data))%nat)
      /\ Forall2 (fun r page =>
                    row_keys_exact extractor r
                      (FromFile (FileObject (file_path page)), page_meta_features page))
           rows (List.filter page_parses data).
Proof.
  induction data as [|page data IH]; intros extractor skipped Hfc Hcc Hread; simpl.
  - exists []. rewrite app_nil_r, Nat.add_0_r. split; [by destruct extractor|constructor].
  - simpl in Hread. apply andb_prop in Hread as [Hpage Hdata].
    unfold page_readable in Hpage.
    destruct (etree_parse (FileObject (file_path page))) as [html_tree|e] eqn:Hparse.
    + assert (page_parses page = true) as Hp by (unfold page_parses; by rewrite Hparse).
      rewrite Hp. simpl.
      destruct (accumulate_features_from_file_parses extractor
                  (FileObject (file_path page)) (page_meta_features page) Hfc Hcc)
        as (r & -> & Hr); [by rewrite Hparse|].
      destruct (IH (set_feature_counts extractor (feature_counts extractor ++ [r]))
                  skipped Hfc Hcc Hdata) as (rows & -> & Hrows).
      exists (r :: rows). split.
      * unfold set_feature_counts. simpl. by rewrite <- app_assoc.
      * constructor; [exact Hr|exact Hrows].
    + assert (page_parses page = false) as Hp by (unfold page_parses; by rewrite Hparse).
      rewrite Hp. simpl.
      rewrite (accumulate_features_from_file_raises _ _ _ _ Hparse).
      destruct e; try done.
      destruct (IH extractor (S skipped) Hfc Hcc Hdata) as (rows & -> & Hrows).
      exists rows. split; [|done]. do 2 f_equal. lia.
Qed.
End main_script_facts.

Lemma length_filter_negb {A : Type} (p : A -> bool) (l : list A) :
  (length (List.filter p l) + length (List.filter (fun x => negb (p x)) l))%nat
  = length l.
Proof.
  induction l as [|x l IH]; simpl; [done|].
  destruct (p x); simpl; lia.
Qed.

(** X13: when the criteria can be evaluated and every page parses or
    raises [XMLSyntaxError], the loop of the script returns; it has appended
    one row for every page that parses and added to [skipped] the number of
    the other pages, so that the new rows and the skipped pages add up to
    the pages. *)
Theorem accumulate_pages_counts `{Lxml} (extractor : CountingFeatureExtractor)
    (data : list page_data) (skipped : nat) :
  all_values evaluable (_extracted_feature_criteria extractor) = true ->
  all_values has_xpath (_extracted_content_criteria extractor) = true ->
  forallb page_readable data = true ->
  exists rows skipped',
    accumulate_pages extractor data skipped
    = Ok (set_feature_counts extractor (feature_counts extractor ++ rows), skipped')
    /\ length rows = length (List.filter page_parses data)
    /\ (length rows + (skipped' - skipped) = length data)%nat
    /\ (skipped <= skipped')%nat.
Proof.
  intros Hfc Hcc Hread.
  destruct (accumulate_pages_spec data extractor skipped Hfc Hcc Hread)
    as (rows & Hrun & Hrows).
  eexists rows, _. split; [exact Hrun|].
  apply Forall2_length in Hrows.
  pose proof (length_filter_negb page_parses data). lia.
Qed.

Lemma accumulate_pages_counts_witness :
  exists rows skipped',
    @accumulate_pages Disk.lxml script_extractor example_pages 0
    = Ok (set_feature_counts script_extractor (feature_counts script_extractor ++ rows),
          skipped')
    /\ length rows = length (List.filter (@page_parses Disk.lxml) example_pages)
    /\ (length rows + (skipped' - 0) = length example_pages)%nat
    /\ (0 <= skipped')%nat.
Proof.
  apply (@accumulate_pages_counts Disk.lxml script_extractor example_pages 0);
    reflexivity.
Defined.

Example accumulate_pages_run :
  @accumulate_pages Disk.lxml script_extractor example_pages 0
  = Ok (set_feature_counts script_extractor
          [ [ ("num_forms", PyInt 2); ("title_text", PyStr "Hello");
              ("requested_url", PyStr "http://a.example/");
              ("response_url", PyStr "http://a.example/home") ] ],
        1%nat).
Proof. reflexivity. Qed.

(** X14: on an instance whose meta-feature list holds [requested_url] and
    [response_url] and nothing else, the keys of every row that the loop of
    the script appends are the names that [all_feature_names] returns: a
    row has no key outside the header and a value for every name of it. *)
Theorem accumulate_pages_header `{Lxml} (extractor : CountingFeatureExtractor)
    (h : heap) (data : list page_data) (skipped : nat) :
  all_values evaluable (_extracted_feature_criteria extractor) = true ->
  all_values has_xpath (_extracted_content_criteria extractor) = true ->
  forallb page_readable data = true ->
  (forall name : string,
     name ∈ heap_get h (_meta_features extractor)
     <-> name = "requested_url" \/ name = "response_url") ->
  exists rows skipped',
    accumulate_pages extractor data skipped
    = Ok (set_feature_counts extractor (feature_counts extractor ++ rows), skipped')
    /\ Forall (fun r => forall name : string,
                 name ∈ dict_keys r <-> name ∈ all_feature_names extractor h) rows.
Proof.
  intros Hfc Hcc Hread Hmeta.
  destruct (accumulate_pages_spec data extractor skipped Hfc Hcc Hread)
    as (rows & Hrun & Hrows).
  eexists rows, _. split; [exact Hrun|].
  eapply Forall2_Forall_l; [exact Hrows|]. apply Forall_forall.
  intros page _ r [_ Hkeys] name. rewrite Hkeys.
  unfold all_feature_names. simpl. rewrite !elem_of_app, Hmeta.
  rewrite !elem_of_cons, elem_of_nil. tauto.
Qed.

Lemma accumulate_pages_header_witness :
  exists rows skipped',
    @accumulate_pages Disk.lxml script_extractor example_pages 0
    = Ok (set_feature_counts script_extractor (feature_counts script_extractor ++ rows),
          skipped')
    /\ Forall (fun r => forall name : string,
                 name ∈ dict_keys r <-> name ∈ all_feature_names script_extractor (snd url_heap))
         rows.
Proof.
  apply (@accumulate_pages_header Disk.lxml script_extractor (snd url_heap)
           example_pages 0); [reflexivity..|].
  intros name. unfold heap_get. simpl.
  rewrite !elem_of_cons, elem_of_nil. tauto.
Defined.

(** ** Lines of the batch input *)

Lemma split_comma_aux_field (x field : string) :
  has_comma x = false -> split_comma_aux x field = [field +:+ x].
Proof.
  revert field. induction x as [|c x IH]; intros field; simpl.
  - by rewrite string_app_nil_r.
  - intros [Hc Hx]%orb_false_elim. rewrite Hc, IH by done.
    by rewrite <- string_app_assoc.
Qed.

Lemma split_comma_aux_comma (a b field : string) :
  has_comma a = false ->
  split_comma_aux (a +:+ String "," b) field = (field +:+ a) :: split_comma b.
Proof.
  revert field. induction a as [|c a IH]; intros field.
  - intros _. change ("" +:+ String "," b) with (String "," b). simpl.
    by rewrite string_app_nil_r.
  - rewrite string_app_cons. simpl. intros [Hc Ha]%orb_false_elim.
    rewrite Hc, IH by done. by rewrite <- string_app_assoc.
Qed.

(** X15: a line without a comma gives no record: the pipeline raises, with
    [IndexError] when the whole line decodes as base64, and with the
    exception of the decoding otherwise. *)
Theorem process_line_without_label `{Lxml} `{Codecs} (extractor : CountingFeatureExtractor)
    (line : string) :
  has_comma line = false ->
  process_line extractor line
  = match b64decode line with
    | Ok _ => Raise IndexError
    | Raise e => Raise e
    end.
Proof.
  intros Hline. unfold process_line, split_comma.
  rewrite split_comma_aux_field by done. simpl.
  change ("" +:+ line) with line. by destruct (b64decode line).
Qed.

Lemma process_line_without_label_witness :
  @process_line Simple.lxml Simple.codecs example_extractor "PHRpdGxlPkhpPC90aXRsZT4="
  = match @b64decode Simple.codecs "PHRpdGxlPkhpPC90aXRsZT4=" with
    | Ok _ => Raise IndexError
    | Raise e => Raise e
    end.
Proof.
  apply (@process_line_without_label Simple.lxml Simple.codecs example_extractor
           "PHRpdGxlPkhpPC90aXRsZT4=").
  reflexivity.
Defined.

(** X16: for a line [payload,label], with or without further fields after
    a second comma, the pipeline decodes the text before the first comma
    and pairs the result with the text between the first and the second
    comma; further fields are ignored. *)
Theorem process_line_fields `{Lxml} `{Codecs} (extractor : CountingFeatureExtractor)
    (payload label more : string) :
  has_comma payload = false ->
  has_comma label = false ->
  process_line extractor (payload +:+ String "," label)
  = b64decode payload ≫= (fun decoded => extract_record extractor (decoded, label))
  /\ process_line extractor (payload +:+ String "," (label +:+ String "," more))
     = b64decode payload ≫= (fun decoded => extract_record extractor (decoded, label)).
Proof.
  intros Hpayload Hlabel. unfold process_line, split_comma.
  rewrite !split_comma_aux_comma by done. unfold split_comma.
  rewrite split_comma_aux_field, split_comma_aux_comma by done. simpl.
  change ("" +:+ payload) with payload. change ("" +:+ label) with label.
  by destruct (b64decode payload).
Qed.

Lemma process_line_fields_witness :
  @process_line Simple.lxml Simple.codecs example_extractor
    ("PHRpdGxlPkhpPC90aXRsZT4=" +:+ String "," "site-1")
  = @b64decode Simple.codecs "PHRpdGxlPkhpPC90aXRsZT4="
    ≫= (fun decoded =>
          @extract_record Simple.lxml Simple.codecs example_extractor (decoded, "site-1"))
  /\ @process_line Simple.lxml Simple.codecs example_extractor
       ("PHRpdGxlPkhpPC90aXRsZT4=" +:+ String "," ("site-1" +:+ String "," "2019,x"))
     = @b64decode Simple.codecs "PHRpdGxlPkhpPC90aXRsZT4="
       ≫= (fun decoded =>
             @extract_record Simple.lxml Simple.codecs example_extractor (decoded, "site-1")).
Proof.
  apply (@process_line_fields Simple.lxml Simple.codecs example_extractor
           "PHRpdGxlPkhpPC90aXRsZT4=" "site-1" "2019,x"); reflexivity.
Defined.

(** ** Registration, again *)

(** X17: a name that [add_extracted_feature] has registered cannot be
    registered a second time: both registration methods raise the
    [ValueError] of a name that is already there. *)
Theorem registered_name_refused (self self' : CountingFeatureExtractor) (name : string)
    (xpath text_re_mode text_re_pattern xpath' text_re_mode' text_re_pattern' : option string) :
  add_extracted_feature self name xpath text_re_mode text_re_pattern = Ok self' ->
  add_extracted_feature self' name xpath' text_re_mode' text_re_pattern'
  = Raise (ValueError ("There is already a feature named '" +:+ name +:+ "'."))
  /\ add_extracted_content self' name xpath'
     = Raise (ValueError ("There is already a feature named '" +:+ name +:+ "'.")).
Proof.
  intros (Hkeys & _)%add_extracted_feature_inv.
  assert (name ∈ dict_keys (_extracted_feature_criteria self')) as Hin.
  { rewrite Hkeys. apply elem_of_app. right. by apply list_elem_of_singleton. }
  unfold add_extracted_feature, add_extracted_content.
  split.
  - rewrite (proj2 (validate_new_feature_name_test self' name xpath'
                      text_re_mode' text_re_pattern')); [done|by left].
  - rewrite (proj2 (validate_new_feature_name_test self' name xpath' None None));
      [done|by left].
Qed.

Lemma registered_name_refused_witness :
  add_extracted_feature registered_extractor "num_forms" (Some "//div") None None
  = Raise (ValueError ("There is already a feature named '" +:+ "num_forms" +:+ "'."))
  /\ add_extracted_content registered_extractor "num_forms" (Some "//div")
     = Raise (ValueError ("There is already a feature named '" +:+ "num_forms" +:+ "'.")).
Proof.
  apply (registered_name_refused empty_extractor registered_extractor "num_forms"
           (Some "//form") None None (Some "//div") None None).
  reflexivity.
Defined.

(** X18: on an instance that has a content criterion, both registration
    methods raise that [ValueError] for every name and every argument. *)
Theorem registration_refused_with_content (self : CountingFeatureExtractor) (name : string)
    (xpath text_re_mode text_re_pattern : option string) :
  _extracted_content_criteria self <> [] ->
  add_extracted_feature self name xpath text_re_mode text_re_pattern
  = Raise (ValueError ("There is already a feature named '" +:+ name +:+ "'."))
  /\ add_extracted_content self name xpath
     = Raise (ValueError ("There is already a feature named '" +:+ name +:+ "'.")).
Proof.
  intros Hcc. unfold add_extracted_feature, add_extracted_content. split.
  - rewrite (proj2 (validate_new_feature_name_test self name xpath
                      text_re_mode text_re_pattern)); [done|by right].
  - rewrite (proj2 (validate_new_feature_name_test self name xpath None None));
      [done|by right].
Qed.

Lemma registration_refused_with_content_witness :
  add_extracted_feature example_extractor "num_links" (Some "//a") None None
  = Raise (ValueError ("There is already a feature named '" +:+ "num_links" +:+ "'."))
  /\ add_extracted_content example_extractor "num_links" (Some "//a")
     = Raise (ValueError ("There is already a feature named '" +:+ "num_links" +:+ "'.")).
Proof.
  apply (registration_refused_with_content example_extractor "num_links"
           (Some "//a") None None).
  done.
Defined.

(** X19: when [add_extracted_content] succeeds on an instance whose count
    criteria can be evaluated, every later extraction returns a row that
    holds under the new name the number of elements that the expression
    matches, an integer. *)
Theorem add_extracted_content_counts `{Lxml} (self self' : CountingFeatureExtractor)
    (name : string) (xpath : option string) (html_tree : ElementTree) :
  add_extracted_content self name xpath = Ok self' ->
  all_values evaluable (_extracted_feature_criteria self) = true ->
  exists expr data,
    xpath = Some expr
    /\ extract_features_from_tree
         (_extracted_feature_criteria self') (_extracted_content_criteria self') html_tree
       = Ok data
    /\ dict_get data name = Some (PyInt (Z.of_nat (length (tree_xpath html_tree expr)))).
Proof.
  intros Hadd Hev.
  destruct (add_extracted_content_Ok _ _ _ _ Hadd) as [Hcc Hget].
  unfold add_extracted_content in Hadd.
  apply bind_Ok in Hadd as (u & Hvalid & [= <-]). destruct u.
  pose proof (validated_feature_evaluable _ _ _ _ _ Hvalid) as Hnew.
  apply validate_new_feature_cases in Hvalid as (_ & _ & Hx & _).
  destruct xpath as [expr|]; [|done]. exists expr.
  simpl in *.
  destruct (extract_features_from_tree_spec
              (put_feature_criterion (_extracted_feature_criteria self) name (Some expr)
                 None None)
              (_extracted_content_criteria self) html_tree)
    as (data & Hrun & _ & _ & _ & Hcount).
  - by apply all_values_set.
  - by rewrite Hcc.
  - exists data. split; [done|]. split; [done|]. apply Hcount.
    + apply dict_get_is_Some. by rewrite Hget.
    + rewrite Hcc. apply not_elem_of_nil.
    + eapply count_feature_no_filter; [exact Hget|done|by left].
Qed.

Lemma add_extracted_content_counts_witness :
  exists expr data,
    Some "//title" = Some expr
    /\ @extract_features_from_tree Simple.lxml
         (_extracted_feature_criteria
            (set_feature_criteria empty_extractor [("title_text", plain "//title")]))
         (_extracted_content_criteria
            (set_feature_criteria empty_extractor [("title_text", plain "//title")]))
         example_tree
       = Ok data
    /\ dict_get data "title_text"
       = Some (PyInt (Z.of_nat (length (@tree_xpath Simple.lxml example_tree expr)))).
Proof.
  apply (@add_extracted_content_counts Simple.lxml empty_extractor
           (set_feature_criteria empty_extractor [("title_text", plain "//title")])
           "title_text" (Some "//title") example_tree); reflexivity.
Defined.
